(** * Data model of the resource grabber: [app/models.py]

    The module declares two enumerations, three persisted tables
    ([scan_sessions], [web_resources], [download_history]) and a handful of
    validation schemas.  The embedding keeps the declarations as they are
    written: enumerations are inductive types, every model is a record inside
    a module of the same name, and every [Field(...)] keyword that constrains
    a column (primary key, foreign key, unique, maximal length, pattern,
    relationship cascade) is kept as data that the generic store operations
    consult.

    The file does not say which libraries it runs on, and they differ where
    it matters.  Two settings carry the difference: the validation stack
    ([Re.engine]: pydantic 1 with Python's [re], or pydantic 2 with Rust's
    [regex]) and the database ([Backend]: what PostgreSQL does, what SQLite
    does, or any mix of the two). *)

From Stdlib Require Import String Ascii List ZArith Bool Lia Arith Floats.
Import ListNotations.

Local Open Scope string_scope.
Local Open Scope Z_scope.

Set Implicit Arguments.

(* ================================================================== *)
(** ** Enumerations *)

(** [class ResourceType(str, Enum)] *)
Inductive ResourceType : Type :=
| JSON | JAVASCRIPT | XML | YAML | CSS | IMAGE | HTML | TEXT | PDF | OTHER.

(** The [str] value carried by each member. *)
Definition ResourceType_value (r : ResourceType) : string :=
  match r with
  | JSON => "json"
  | JAVASCRIPT => "js"
  | XML => "xml"
  | YAML => "yml"
  | CSS => "css"
  | IMAGE => "image"
  | HTML => "html"
  | TEXT => "txt"
  | PDF => "pdf"
  | OTHER => "other"
  end.

(** [list(ResourceType)]: the members in declaration order. *)
Definition ResourceType_members : list ResourceType :=
  [JSON; JAVASCRIPT; XML; YAML; CSS; IMAGE; HTML; TEXT; PDF; OTHER].

(** [ResourceType(s)]: lookup by value; [None] stands for the [ValueError]
    the enum raises on a string that is no member's value. *)
Definition ResourceType_of_value (s : string) : option ResourceType :=
  find (fun r => String.eqb (ResourceType_value r) s) ResourceType_members.

(** The names of the members, which is what a database stores for a
    member. *)
Definition ResourceType_name (r : ResourceType) : string :=
  match r with
  | JSON => "JSON"
  | JAVASCRIPT => "JAVASCRIPT"
  | XML => "XML"
  | YAML => "YAML"
  | CSS => "CSS"
  | IMAGE => "IMAGE"
  | HTML => "HTML"
  | TEXT => "TEXT"
  | PDF => "PDF"
  | OTHER => "OTHER"
  end.

(** What an attribute annotated with the enumeration [E] holds when nothing
    validates it: a member, or whatever string the caller passes. *)
Inductive unvalidated (E : Type) : Type :=
| Member (m : E)
| Raw (s : string).

Arguments Raw {E} s.

(** Validation of a [ResourceType] field: a member is kept and a string is
    looked up by value; [None] stands for the validation error. *)
Definition ResourceType_validate (v : unvalidated ResourceType)
  : option ResourceType :=
  match v with
  | Member m => Some m
  | Raw s => ResourceType_of_value s
  end.

(** What the [Enum] column type sends to the database for an attribute: a
    member, and a string that is the value or the name of a member, go as
    that member; any other string goes as it is. *)
Definition ResourceType_bind (v : unvalidated ResourceType)
  : unvalidated ResourceType :=
  match v with
  | Member m => Member m
  | Raw s =>
      match find (fun m => String.eqb (ResourceType_value m) s
                           || String.eqb (ResourceType_name m) s)
                 ResourceType_members with
      | Some m => Member m
      | None => Raw s
      end
  end.

(** [class ScanStatus(str, Enum)] *)
Inductive ScanStatus : Type :=
| PENDING | IN_PROGRESS | COMPLETED | FAILED.

Definition ScanStatus_value (s : ScanStatus) : string :=
  match s with
  | PENDING => "pending"
  | IN_PROGRESS => "in_progress"
  | COMPLETED => "completed"
  | FAILED => "failed"
  end.

Definition ScanStatus_members : list ScanStatus :=
  [PENDING; IN_PROGRESS; COMPLETED; FAILED].

Definition ScanStatus_of_value (s : string) : option ScanStatus :=
  find (fun r => String.eqb (ScanStatus_value r) s) ScanStatus_members.

(* ================================================================== *)
(** ** Patterns

    [Field(regex=...)] attaches a regular expression to a string field.  The
    fragment below covers the operators that occur in the module; a pattern is
    run the way [re.match] runs it, by backtracking from the first character
    with greedy [?] and [*].

    Characters are code points below 256.  Two things depend on the engine
    that the validation layer hands the pattern to, so the matcher takes the
    engine as an argument:
    - [$] matches at the very end and, for Python's [re], also just before a
      final line feed;
    - [\s] is [Unicode White_Space]; Python's [re] adds the four separators
      U+001C to U+001F.

    The engine also tells the validation stack: pydantic 1 runs a pattern
    with Python's [re], pydantic 2 with Rust's [regex]. *)

Module Re.

Inductive engine : Type := PythonRe | RustRegex.

Inductive item : Type :=
| Ch (c : ascii)        (* a literal character inside a class *)
| Space.                (* \s *)

Inductive regex : Type :=
| Bol                        (* ^ *)
| Eol                        (* $ *)
| Lit (c : ascii)            (* a literal character *)
| Dot                        (* . : anything but a line feed *)
| NotIn (cs : list item)     (* [^...] *)
| Opt (r : regex)            (* r? *)
| Star (r : regex)           (* r* *)
| Seq (r1 r2 : regex).       (* r1 r2 *)

Definition LF : ascii := ascii_of_nat 10.

Definition is_space (e : engine) (c : ascii) : bool :=
  let n := nat_of_ascii c in
  (((9 <=? n) && (n <=? 13)) || (n =? 32) || (n =? 133) || (n =? 160)
   || match e with
      | PythonRe => (28 <=? n) && (n <=? 31)
      | RustRegex => false
      end)%nat.

Definition in_item (e : engine) (c : ascii) (i : item) : bool :=
  match i with
  | Ch d => Ascii.eqb c d
  | Space => is_space e c
  end.

Definition in_class (e : engine) (cs : list item) (c : ascii) : bool :=
  existsb (in_item e c) cs.

Definition at_end (e : engine) (s : string) : bool :=
  match s with
  | EmptyString => true
  | String c EmptyString =>
      match e with PythonRe => Ascii.eqb c LF | RustRegex => false end
  | _ => false
  end.

(** Greedy iteration of [body], then [k].  One round must consume at least
    one character; [fuel] bounds the rounds and the length of the subject is
    always enough of it. *)
Fixpoint star (body : nat -> string -> (nat -> string -> bool) -> bool)
         (k : nat -> string -> bool) (fuel : nat) (pos : nat) (s : string)
         {struct fuel} : bool :=
  body pos s
       (fun pos' s' =>
          match fuel with
          | O => false
          | S fuel' =>
              if (String.length s' <? String.length s)%nat
              then star body k fuel' pos' s'
              else false
          end)
  || k pos s.

(** [run e r pos s k]: match [r] against [s], the rest of the subject from
    offset [pos], and hand what is left to the continuation [k]. *)
Fixpoint run (e : engine) (r : regex) (pos : nat) (s : string)
         (k : nat -> string -> bool) {struct r} : bool :=
  match r with
  | Bol => if (pos =? 0)%nat then k pos s else false
  | Eol => if at_end e s then k pos s else false
  | Lit c =>
      match s with
      | String a s' => if Ascii.eqb a c then k (S pos) s' else false
      | EmptyString => false
      end
  | Dot =>
      match s with
      | String a s' => if Ascii.eqb a LF then false else k (S pos) s'
      | EmptyString => false
      end
  | NotIn cs =>
      match s with
      | String a s' => if in_class e cs a then false else k (S pos) s'
      | EmptyString => false
      end
  | Opt r' => run e r' pos s k || k pos s
  | Star r' => star (run e r') k (String.length s) pos s
  | Seq r1 r2 => run e r1 pos s (fun pos' s' => run e r2 pos' s' k)
  end.

(** [re.match(r, s) is not None] *)
Definition matches (e : engine) (r : regex) (s : string) : bool :=
  run e r 0 s (fun _ _ => true).

(** A literal string as a sequence of [Lit], followed by [r]. *)
Fixpoint lits (s : string) (r : regex) : regex :=
  match s with
  | EmptyString => r
  | String c s' => Seq (Lit c) (lits s' r)
  end.

End Re.

(* ================================================================== *)
(** ** Field declarations

    A column is declared as [name: type = Field(keyword, ...)].  The keywords
    that constrain a value are kept as a list, in the order they are written;
    a keyword that is not written has SQLModel's default ([False] for
    [primary_key], [unique] and [index], nothing for the others).  The
    [default] and [default_factory] keywords are applied by each model's
    constructor below. *)

Definition datetime : Type := Z.

Inductive kwarg : Type :=
| primary_key (b : bool)
| foreign_key (target : string)
| unique (b : bool)
| index (b : bool)
| max_length (n : Z)
| regex (r : Re.regex).

Definition Field : Type := list kwarg.

Definition is_primary_key (f : Field) : bool :=
  existsb (fun k => match k with primary_key b => b | _ => false end) f.

Definition is_unique (f : Field) : bool :=
  existsb (fun k => match k with unique b => b | _ => false end) f.

Fixpoint foreign_key_of (f : Field) : option string :=
  match f with
  | [] => None
  | foreign_key t :: _ => Some t
  | _ :: f' => foreign_key_of f'
  end.

Fixpoint max_length_of (f : Field) : option Z :=
  match f with
  | [] => None
  | max_length n :: _ => Some n
  | _ :: f' => max_length_of f'
  end.

Fixpoint regex_of (f : Field) : option Re.regex :=
  match f with
  | [] => None
  | regex r :: _ => Some r
  | _ :: f' => regex_of f'
  end.

(** [Relationship(back_populates=..., cascade_delete=...)]; [cascade_delete]
    is [False] when it is not written. *)
Record RelationshipInfo : Type := Relationship {
  back_populates : string;
  cascade_delete : bool
}.

(** The value a row holds in one column, as the store compares it. *)
Inductive value : Type :=
| VNone
| VInt (z : Z)
| VStr (s : string)
| VBool (b : bool)
| VFloat (x : float)
| VTime (t : datetime)
| VEnum (s : string).

Definition value_eqb (a b : value) : bool :=
  match a, b with
  | VNone, VNone => true
  | VInt x, VInt y => Z.eqb x y
  | VStr x, VStr y => String.eqb x y
  | VBool x, VBool y => Bool.eqb x y
  | VFloat x, VFloat y => PrimFloat.eqb x y
  | VTime x, VTime y => Z.eqb x y
  | VEnum x, VEnum y => String.eqb x y
  | _, _ => false
  end.

Definition opt (A : Type) (inj : A -> value) (o : option A) : value :=
  match o with
  | Some a => inj a
  | None => VNone
  end.

(** One declared column of a model whose rows have type [T]. *)
Record Column (T : Type) : Type := Col {
  name : string;
  info : Field;
  get : T -> value
}.

(** The first [n] characters of [s], and what follows them. *)
Fixpoint take (n : nat) (s : string) : string :=
  match n, s with
  | S n', String c s' => String c (take n' s')
  | _, _ => EmptyString
  end.

Fixpoint drop (n : nat) (s : string) : string :=
  match n, s with
  | S n', String _ s' => drop n' s'
  | _, _ => s
  end.

Fixpoint all_spaces (s : string) : bool :=
  match s with
  | EmptyString => true
  | String c s' => Ascii.eqb c " " && all_spaces s'
  end.

(** The size declared for the column called [field], if any. *)
Definition size_of (T : Type) (cols : list (Column T)) (field : string)
  : option Z :=
  match find (fun c => String.eqb (name c) field) cols with
  | Some c => max_length_of (info c)
  | None => None
  end.

(** [s] cut to the size of the column [field]. *)
Definition cut (T : Type) (cols : list (Column T)) (field : string)
           (s : string) : string :=
  match size_of cols field with
  | Some n => take (Z.to_nat n) s
  | None => s
  end.

(* ================================================================== *)
(** ** Persistent models ([table=True])

    With pydantic 2, SQLModel does not validate a table model when it is
    constructed: the constructor stores the arguments it is given and fills in
    the declared defaults, which is what the constructors below do.  (On
    pydantic 1 the constructor runs the validators and leaves out, without an
    error, a field whose value fails.)  In a [kwargs] record [None] stands for
    a keyword that the caller leaves out.

    [clip] is the row as a database that enforces column sizes keeps it: each
    sized string cut to its size. *)

Module ScanSession.

Definition tablename : string := "scan_sessions".

Record t : Type := mk {
  id : option Z;
  target_url : string;
  status : ScanStatus;
  username : option string;
  password : option string;
  auth_token : option string;
  payload : option string;
  created_at : datetime;
  completed_at : option datetime;
  error_message : option string;
  total_resources_found : Z;
  scan_duration_seconds : option float
}.

Definition columns : list (Column t) :=
  [ Col "id" [primary_key true] (fun r => opt VInt (id r));
    Col "target_url" [max_length 2048; index true] (fun r => VStr (target_url r));
    Col "status" [] (fun r => VEnum (ScanStatus_value (status r)));
    Col "username" [max_length 255] (fun r => opt VStr (username r));
    Col "password" [max_length 255] (fun r => opt VStr (password r));
    Col "auth_token" [max_length 1024] (fun r => opt VStr (auth_token r));
    Col "payload" [max_length 10000] (fun r => opt VStr (payload r));
    Col "created_at" [] (fun r => VTime (created_at r));
    Col "completed_at" [] (fun r => opt VTime (completed_at r));
    Col "error_message" [max_length 1000] (fun r => opt VStr (error_message r));
    Col "total_resources_found" [] (fun r => VInt (total_resources_found r));
    Col "scan_duration_seconds" [] (fun r => opt VFloat (scan_duration_seconds r)) ].

(** [resources: List["WebResource"] = Relationship(back_populates="scan_session")] *)
Definition resources : RelationshipInfo :=
  Relationship "scan_session" false.

Record kwargs : Type := kw {
  id_ : option Z;
  status_ : option ScanStatus;
  username_ : option string;
  password_ : option string;
  auth_token_ : option string;
  payload_ : option string;
  created_at_ : option datetime;
  completed_at_ : option datetime;
  error_message_ : option string;
  total_resources_found_ : option Z;
  scan_duration_seconds_ : option float
}.

(** No keyword given. *)
Definition no_kwargs : kwargs :=
  kw None None None None None None None None None None None.

(** [ScanSession(target_url=u, **k)], constructed at instant [now]. *)
Definition new (now : datetime) (u : string) (k : kwargs) : t :=
  {| id := id_ k;
     target_url := u;
     status := match status_ k with Some s => s | None => PENDING end;
     username := username_ k;
     password := password_ k;
     auth_token := auth_token_ k;
     payload := payload_ k;
     created_at := match created_at_ k with Some d => d | None => now end;
     completed_at := completed_at_ k;
     error_message := error_message_ k;
     total_resources_found :=
       match total_resources_found_ k with Some n => n | None => 0 end;
     scan_duration_seconds := scan_duration_seconds_ k |}.

Definition set_id (i : Z) (r : t) : t :=
  mk (Some i) (target_url r) (status r) (username r) (password r)
     (auth_token r) (payload r) (created_at r) (completed_at r)
     (error_message r) (total_resources_found r) (scan_duration_seconds r).

Definition clip (r : t) : t :=
  mk (id r) (cut columns "target_url" (target_url r)) (status r)
     (option_map (cut columns "username") (username r))
     (option_map (cut columns "password") (password r))
     (option_map (cut columns "auth_token") (auth_token r))
     (option_map (cut columns "payload") (payload r))
     (created_at r) (completed_at r)
     (option_map (cut columns "error_message") (error_message r))
     (total_resources_found r) (scan_duration_seconds r).

End ScanSession.

Module WebResource.

Definition tablename : string := "web_resources".

Record t : Type := mk {
  id : option Z;
  scan_session_id : Z;
  url : string;
  relative_path : string;
  resource_type : unvalidated ResourceType;
  file_extension : string;
  content_type : option string;
  file_size_bytes : option Z;
  last_modified : option datetime;
  is_downloadable : bool;
  download_attempts : Z;
  last_download_at : option datetime;
  discovered_at : datetime;
  source_element : option string
}.

Definition columns : list (Column t) :=
  [ Col "id" [primary_key true] (fun r => opt VInt (id r));
    Col "scan_session_id" [foreign_key "scan_sessions.id"; index true]
        (fun r => VInt (scan_session_id r));
    Col "url" [max_length 2048] (fun r => VStr (url r));
    Col "relative_path" [max_length 1024] (fun r => VStr (relative_path r));
    Col "resource_type" [index true]
        (fun r => match resource_type r with
                  | Member m => VEnum (ResourceType_value m)
                  | Raw s => VStr s
                  end);
    Col "file_extension" [max_length 10; index true]
        (fun r => VStr (file_extension r));
    Col "content_type" [max_length 100] (fun r => opt VStr (content_type r));
    Col "file_size_bytes" [] (fun r => opt VInt (file_size_bytes r));
    Col "last_modified" [] (fun r => opt VTime (last_modified r));
    Col "is_downloadable" [] (fun r => VBool (is_downloadable r));
    Col "download_attempts" [] (fun r => VInt (download_attempts r));
    Col "last_download_at" [] (fun r => opt VTime (last_download_at r));
    Col "discovered_at" [] (fun r => VTime (discovered_at r));
    Col "source_element" [max_length 50] (fun r => opt VStr (source_element r)) ].

(** [scan_session: ScanSession = Relationship(back_populates="resources")] *)
Definition scan_session : RelationshipInfo :=
  Relationship "resources" false.

Record kwargs : Type := kw {
  id_ : option Z;
  content_type_ : option string;
  file_size_bytes_ : option Z;
  last_modified_ : option datetime;
  is_downloadable_ : option bool;
  download_attempts_ : option Z;
  last_download_at_ : option datetime;
  discovered_at_ : option datetime;
  source_element_ : option string
}.

Definition no_kwargs : kwargs :=
  kw None None None None None None None None None.

(** [WebResource(scan_session_id=sid, url=u, relative_path=p,
    resource_type=ty, file_extension=ext, **k)], where nothing checks what is
    passed for [resource_type]. *)
Definition construct (now : datetime) (sid : Z) (u p : string)
           (ty : unvalidated ResourceType) (ext : string) (k : kwargs) : t :=
  {| id := id_ k;
     scan_session_id := sid;
     url := u;
     relative_path := p;
     resource_type := ty;
     file_extension := ext;
     content_type := content_type_ k;
     file_size_bytes := file_size_bytes_ k;
     last_modified := last_modified_ k;
     is_downloadable :=
       match is_downloadable_ k with Some b => b | None => true end;
     download_attempts :=
       match download_attempts_ k with Some n => n | None => 0 end;
     last_download_at := last_download_at_ k;
     discovered_at :=
       match discovered_at_ k with Some d => d | None => now end;
     source_element := source_element_ k |}.

(** The same call with a member of [ResourceType]. *)
Definition new (now : datetime) (sid : Z) (u p : string) (ty : ResourceType)
           (ext : string) (k : kwargs) : t :=
  construct now sid u p (Member ty) ext k.

Definition set_id (i : Z) (r : t) : t :=
  mk (Some i) (scan_session_id r) (url r) (relative_path r) (resource_type r)
     (file_extension r) (content_type r) (file_size_bytes r) (last_modified r)
     (is_downloadable r) (download_attempts r) (last_download_at r)
     (discovered_at r) (source_element r).

Definition clip (r : t) : t :=
  mk (id r) (scan_session_id r) (cut columns "url" (url r))
     (cut columns "relative_path" (relative_path r)) (resource_type r)
     (cut columns "file_extension" (file_extension r))
     (option_map (cut columns "content_type") (content_type r))
     (file_size_bytes r) (last_modified r)
     (is_downloadable r) (download_attempts r) (last_download_at r)
     (discovered_at r)
     (option_map (cut columns "source_element") (source_element r)).

(** What a column of the enumeration type can hold in a database that checks
    it: a member, or a string that is the value or the name of one. *)
Definition storable (v : unvalidated ResourceType) : bool :=
  match v with
  | Member _ => true
  | Raw s =>
      existsb (fun m => String.eqb (ResourceType_value m) s
                        || String.eqb (ResourceType_name m) s)
              ResourceType_members
  end.

(** The row as it is sent to the database: the resource type is the only
    attribute that the column types change. *)
Definition bound (r : t) : t :=
  mk (id r) (scan_session_id r) (url r) (relative_path r)
     (ResourceType_bind (resource_type r))
     (file_extension r) (content_type r) (file_size_bytes r) (last_modified r)
     (is_downloadable r) (download_attempts r) (last_download_at r)
     (discovered_at r) (source_element r).

End WebResource.

Module DownloadHistory.

Definition tablename : string := "download_history".

Record t : Type := mk {
  id : option Z;
  resource_id : Z;
  downloaded_at : datetime;
  file_size_bytes : option Z;
  download_duration_seconds : option float;
  success : bool;
  error_message : option string;
  client_ip : option string;
  user_agent : option string
}.

Definition columns : list (Column t) :=
  [ Col "id" [primary_key true] (fun r => opt VInt (id r));
    Col "resource_id" [foreign_key "web_resources.id"; index true]
        (fun r => VInt (resource_id r));
    Col "downloaded_at" [] (fun r => VTime (downloaded_at r));
    Col "file_size_bytes" [] (fun r => opt VInt (file_size_bytes r));
    Col "download_duration_seconds" []
        (fun r => opt VFloat (download_duration_seconds r));
    Col "success" [] (fun r => VBool (success r));
    Col "error_message" [max_length 500] (fun r => opt VStr (error_message r));
    Col "client_ip" [max_length 45] (fun r => opt VStr (client_ip r));
    Col "user_agent" [max_length 500] (fun r => opt VStr (user_agent r)) ].

Record kwargs : Type := kw {
  id_ : option Z;
  downloaded_at_ : option datetime;
  file_size_bytes_ : option Z;
  download_duration_seconds_ : option float;
  success_ : option bool;
  error_message_ : option string;
  client_ip_ : option string;
  user_agent_ : option string
}.

Definition no_kwargs : kwargs :=
  kw None None None None None None None None.

(** [DownloadHistory(resource_id=rid, **k)] *)
Definition new (now : datetime) (rid : Z) (k : kwargs) : t :=
  {| id := id_ k;
     resource_id := rid;
     downloaded_at :=
       match downloaded_at_ k with Some d => d | None => now end;
     file_size_bytes := file_size_bytes_ k;
     download_duration_seconds := download_duration_seconds_ k;
     success := match success_ k with Some b => b | None => true end;
     error_message := error_message_ k;
     client_ip := client_ip_ k;
     user_agent := user_agent_ k |}.

Definition set_id (i : Z) (r : t) : t :=
  mk (Some i) (resource_id r) (downloaded_at r) (file_size_bytes r)
     (download_duration_seconds r) (success r) (error_message r)
     (client_ip r) (user_agent r).

Definition clip (r : t) : t :=
  mk (id r) (resource_id r) (downloaded_at r) (file_size_bytes r)
     (download_duration_seconds r) (success r)
     (option_map (cut columns "error_message") (error_message r))
     (option_map (cut columns "client_ip") (client_ip r))
     (option_map (cut columns "user_agent") (user_agent r)).

End DownloadHistory.

(* ================================================================== *)
(** ** Validation schemas ([table=False])

    A schema is validated when it is constructed.  A string field is checked
    against its [max_length] first and its pattern second; the first failed
    check is the field's error, and the errors of all fields are raised
    together as one [ValidationError].

    Whether the [regex] keyword reaches the validator depends on the stack.
    With pydantic 1 it does.  With pydantic 2 the keyword of a pattern is
    [pattern]; SQLModel's [Field] still takes [regex] but does not pass it on,
    and no pattern is checked. *)

Inductive ErrorType : Type :=
| string_too_long (limit : Z)
| string_pattern_mismatch
| not_a_member.

Definition applies_regex (e : Re.engine) : bool :=
  match e with
  | Re.PythonRe => true
  | Re.RustRegex => false
  end.

(** The pattern that a field's value is checked against, if any. *)
Definition pattern_of (e : Re.engine) (f : Field) : option Re.regex :=
  if applies_regex e then regex_of f else None.

(** The [(loc, type)] lines of a raised error; never empty when raised. *)
Definition ValidationError : Type := list (string * ErrorType).

Definition check_value (e : Re.engine) (f : Field) (v : value)
  : option ErrorType :=
  match v with
  | VStr s =>
      match max_length_of f with
      | Some n =>
          if n <? Z.of_nat (String.length s) then Some (string_too_long n)
          else match pattern_of e f with
               | Some r =>
                   if Re.matches e r s then None
                   else Some string_pattern_mismatch
               | None => None
               end
      | None =>
          match pattern_of e f with
          | Some r =>
              if Re.matches e r s then None else Some string_pattern_mismatch
          | None => None
          end
      end
  | _ => None
  end.

Definition field_errors (T : Type) (e : Re.engine) (cols : list (Column T))
           (x : T) : ValidationError :=
  flat_map (fun c => match check_value e (info c) (get c x) with
                     | Some err => [(name c, err)]
                     | None => []
                     end) cols.

Definition model_validate (T : Type) (e : Re.engine) (cols : list (Column T))
           (x : T) : ValidationError + T :=
  match field_errors e cols x with
  | [] => inr x
  | errs => inl errs
  end.

Module ScanRequest.

Record t : Type := mk {
  target_url : string;
  username : option string;
  password : option string;
  auth_token : option string;
  payload : option string
}.

(** [r"^https?://[^\s/$.?#].[^\s]*$"] *)
Definition target_url_regex : Re.regex :=
  Re.Seq Re.Bol
    (Re.lits "http"
       (Re.Seq (Re.Opt (Re.Lit "s"))
          (Re.lits "://"
             (Re.Seq (Re.NotIn [Re.Space; Re.Ch "/"; Re.Ch "$"; Re.Ch ".";
                                Re.Ch "?"; Re.Ch "#"])
                (Re.Seq Re.Dot
                   (Re.Seq (Re.Star (Re.NotIn [Re.Space])) Re.Eol)))))).

Definition columns : list (Column t) :=
  [ Col "target_url" [max_length 2048; regex target_url_regex]
        (fun r => VStr (target_url r));
    Col "username" [max_length 255] (fun r => opt VStr (username r));
    Col "password" [max_length 255] (fun r => opt VStr (password r));
    Col "auth_token" [max_length 1024] (fun r => opt VStr (auth_token r));
    Col "payload" [max_length 10000] (fun r => opt VStr (payload r)) ].

(** [ScanRequest(target_url=u, username=un, password=pw, auth_token=tok,
    payload=pl)] *)
Definition new (e : Re.engine) (u : string) (un pw tok pl : option string)
  : ValidationError + t :=
  model_validate e columns (mk u un pw tok pl).

End ScanRequest.

Module ScanStatusUpdate.

Record t : Type := mk {
  status : ScanStatus;
  error_message : option string;
  total_resources_found : option Z;
  scan_duration_seconds : option float
}.

Definition columns : list (Column t) :=
  [ Col "status" [] (fun r => VEnum (ScanStatus_value (status r)));
    Col "error_message" [max_length 1000] (fun r => opt VStr (error_message r));
    Col "total_resources_found" [] (fun r => opt VInt (total_resources_found r));
    Col "scan_duration_seconds" []
        (fun r => opt VFloat (scan_duration_seconds r)) ].

(** [ScanStatusUpdate(status=st, error_message=msg, total_resources_found=n,
    scan_duration_seconds=d)] *)
Definition new (e : Re.engine) (st : ScanStatus) (msg : option string)
           (n : option Z) (d : option float) : ValidationError + t :=
  model_validate e columns (mk st msg n d).

End ScanStatusUpdate.

(* ================================================================== *)
(** ** The target url pattern, read in words

    A second recogniser, written from the words that describe the pattern and
    not from the pattern: the string begins with [http://] or [https://];
    at least two characters follow, the first of which is neither whitespace
    nor one of [/ $ . ? #] and the second of which is no line feed; no
    whitespace follows up to the end of the string. *)

Fixpoint strip_prefix (p s : string) : option string :=
  match p, s with
  | EmptyString, _ => Some s
  | String a p', String b s' =>
      if Ascii.eqb b a then strip_prefix p' s' else None
  | String _ _, EmptyString => None
  end.

Fixpoint no_space_to_end (e : Re.engine) (s : string) : bool :=
  match s with
  | EmptyString => true
  | String a s' =>
      (negb (Re.is_space e a) && no_space_to_end e s') || Re.at_end e s
  end.

Definition host_and_rest (e : Re.engine) (s : string) : bool :=
  match s with
  | String c1 (String c2 rest) =>
      negb (Re.is_space e c1
            || existsb (Ascii.eqb c1) ["/"; "$"; "."; "?"; "#"]%char)
      && negb (Ascii.eqb c2 Re.LF)
      && no_space_to_end e rest
  | _ => false
  end.

Definition is_http_url (e : Re.engine) (u : string) : bool :=
  match strip_prefix "http://" u, strip_prefix "https://" u with
  | Some s, _ => host_and_rest e s
  | None, Some s => host_and_rest e s
  | None, None => false
  end.

(* ================================================================== *)
(** ** The store

    The three tables, with the constraints that the declarations put on them.
    Primary keys, [unique] columns and [NOT NULL] are enforced everywhere.
    What else a database does with a declaration depends on the database, and
    each such point is a setting of the backend:
    - [varchar_limit]: whether the size of a [VARCHAR(n)] column is enforced.
      PostgreSQL enforces it, by the rule of the SQL standard: a longer string
      is refused unless all that exceeds the size is spaces, and then it is
      stored cut to the size.  SQLite does not look at the size.
    - [foreign_keys]: whether foreign keys are checked (off in SQLite unless
      switched on).
    - [integer_bits]: the width of an [INTEGER] column, 32 bits in PostgreSQL
      and 64 in SQLite; a number outside it is refused.
    - [enum_check]: whether a column of an enumeration type takes members
      only (a native [ENUM] in PostgreSQL, a plain [VARCHAR] in SQLite).

    The id of a row that is inserted without one is handed out by the
    database: the next value of the table's sequence in PostgreSQL, which the
    ids given explicitly do not advance, and one above the largest id in
    SQLite.  An insertion therefore takes the id the database draws as an
    argument, and the primary key is checked on it like on any other. *)

Record Backend : Type := {
  varchar_limit : bool;
  foreign_keys : bool;
  integer_bits : Z;
  enum_check : bool
}.

Inductive DBError : Type :=
| IntegrityError (constraint : string)
| DataError (column : string).

Record Store : Type := {
  scan_sessions : list ScanSession.t;
  web_resources : list WebResource.t;
  download_history : list DownloadHistory.t
}.

Definition empty_store : Store := Build_Store [] [] [].

(** The ids present in a list of rows. *)
Fixpoint ids_of (T : Type) (get_id : T -> option Z) (rows : list T) : list Z :=
  match rows with
  | [] => []
  | r :: rows' =>
      match get_id r with
      | Some i => i :: ids_of get_id rows'
      | None => ids_of get_id rows'
      end
  end.

(** The id SQLite draws: 1 in an empty table, else one above the largest. *)
Definition rowid_after (ids : list Z) : Z :=
  match ids with
  | [] => 1
  | i :: ids' => 1 + fold_right Z.max i ids'
  end.

(** The id PostgreSQL draws: the value after the [drawn] ones that the
    table's sequence has handed out so far. *)
Definition sequence_after (drawn : Z) : Z := drawn + 1.

(** The ids a foreign key target ["table.id"] refers to. *)
Definition referenced (db : Store) (target : string) : list Z :=
  if String.eqb target (ScanSession.tablename ++ ".id")
  then ids_of ScanSession.id (scan_sessions db)
  else if String.eqb target (WebResource.tablename ++ ".id")
  then ids_of WebResource.id (web_resources db)
  else if String.eqb target (DownloadHistory.tablename ++ ".id")
  then ids_of DownloadHistory.id (download_history db)
  else [].

(** A number that an [INTEGER] column of the backend holds. *)
Definition in_range (b : Backend) (z : Z) : bool :=
  (- 2 ^ (integer_bits b - 1) <=? z) && (z <? 2 ^ (integer_bits b - 1)).

(** A string that a column of size [n] does not take: it is longer and what
    exceeds the size is not all spaces. *)
Definition too_long (n : Z) (s : string) : bool :=
  negb (all_spaces (drop (Z.to_nat n) s)).

Section Table.

Variable T : Type.
Variable cols : list (Column T).

(** A primary-key or [unique] column in which [r] repeats a stored value. *)
Definition key_conflict (rows : list T) (r : T) : bool :=
  existsb (fun c =>
             (is_primary_key (info c) || is_unique (info c))
             && match get c r with
                | VNone => false
                | v => existsb (fun r' => value_eqb (get c r') v) rows
                end) cols.

(** The first column that does not take the string [r] has for it. *)
Definition over_length (r : T) : option string :=
  option_map (@name T)
    (find (fun c => match max_length_of (info c), get c r with
                    | Some n, VStr s => too_long n s
                    | _, _ => false
                    end) cols).

(** The first integer column whose number is outside the backend's range. *)
Definition out_of_range (b : Backend) (r : T) : option string :=
  option_map (@name T)
    (find (fun c => match get c r with
                    | VInt z => negb (in_range b z)
                    | _ => false
                    end) cols).

(** A foreign-key column of [r] that refers to no stored row. *)
Definition dangling (refs : string -> list Z) (r : T) : bool :=
  existsb (fun c => match foreign_key_of (info c), get c r with
                    | Some target, VInt z =>
                        negb (existsb (Z.eqb z) (refs target))
                    | _, _ => false
                    end) cols.

Variable get_id : T -> option Z.
Variable set_id : Z -> T -> T.
Variable clip : T -> T.

(** [session.add(r); session.commit()] on one table; [draw] is the id the
    database hands out if [r] comes without one. *)
Definition insert_row (b : Backend) (refs : string -> list Z)
           (rows : list T) (r : T) (draw : Z) : DBError + list T :=
  let r1 := match get_id r with
            | Some _ => r
            | None => set_id draw r
            end in
  match (if varchar_limit b then over_length r1 else None) with
  | Some c => inl (DataError c)
  | None =>
      let r' := if varchar_limit b then clip r1 else r1 in
      match out_of_range b r' with
      | Some c => inl (DataError c)
      | None =>
          if key_conflict rows r' then inl (IntegrityError "unique")
          else if foreign_keys b && dangling refs r'
               then inl (IntegrityError "foreign key")
               else inr (rows ++ [r'])%list
      end
  end.

End Table.

Definition add_scan_session (b : Backend) (db : Store) (s : ScanSession.t)
           (draw : Z) : DBError + Store :=
  match insert_row ScanSession.columns ScanSession.id ScanSession.set_id
                   ScanSession.clip
                   b (referenced db) (scan_sessions db) s draw with
  | inl e => inl e
  | inr rows => inr (Build_Store rows (web_resources db) (download_history db))
  end.

(** For a resource the database first looks at the resource type: one that
    checks the column refuses a string that is no member. *)
Definition add_web_resource (b : Backend) (db : Store) (r : WebResource.t)
           (draw : Z) : DBError + Store :=
  if enum_check b && negb (WebResource.storable (WebResource.resource_type r))
  then inl (DataError "resource_type")
  else
    match insert_row WebResource.columns WebResource.id WebResource.set_id
                     WebResource.clip
                     b (referenced db) (web_resources db)
                     (WebResource.bound r) draw with
    | inl e => inl e
    | inr rows =>
        inr (Build_Store (scan_sessions db) rows (download_history db))
    end.

Definition add_download_history (b : Backend) (db : Store)
           (h : DownloadHistory.t) (draw : Z) : DBError + Store :=
  match insert_row DownloadHistory.columns DownloadHistory.id
                   DownloadHistory.set_id DownloadHistory.clip
                   b (referenced db) (download_history db) h draw with
  | inl e => inl e
  | inr rows => inr (Build_Store (scan_sessions db) (web_resources db) rows)
  end.

Definition has_id (T : Type) (get_id : T -> option Z) (i : Z) (r : T) : bool :=
  match get_id r with
  | Some j => Z.eqb j i
  | None => false
  end.

(** The rows of [ScanSession.resources] for the session with id [sid]. *)
Definition resources_of (db : Store) (sid : Z) : list WebResource.t :=
  filter (fun r => Z.eqb (WebResource.scan_session_id r) sid) (web_resources db).

Definition drop_scan_session (db : Store) (sid : Z) : Store :=
  Build_Store
    (filter (fun s => negb (has_id ScanSession.id sid s)) (scan_sessions db))
    (web_resources db) (download_history db).

(** Deleting one [web_resources] row; [download_history.resource_id] refers
    to it with no [ondelete]. *)
Definition delete_web_resource (b : Backend) (db : Store) (rid : Z)
  : DBError + Store :=
  if foreign_keys b
     && existsb (fun h => Z.eqb (DownloadHistory.resource_id h) rid)
                (download_history db)
  then inl (IntegrityError "foreign key")
  else inr (Build_Store
              (scan_sessions db)
              (filter (fun r => negb (has_id WebResource.id rid r))
                      (web_resources db))
              (download_history db)).

Fixpoint delete_web_resources (b : Backend) (db : Store)
         (rs : list WebResource.t) : DBError + Store :=
  match rs with
  | [] => inr db
  | r :: rs' =>
      match WebResource.id r with
      | None => delete_web_resources b db rs'
      | Some rid =>
          match delete_web_resource b db rid with
          | inl e => inl e
          | inr db' => delete_web_resources b db' rs'
          end
      end
  end.

(** [session.delete(scan_session); session.commit()].  The unit of work
    visits the rows of the [resources] relationship first: with
    [cascade_delete] they are deleted with their parent, without it their
    [scan_session_id] is set to [NULL], which the column, declared [int] and
    not [Optional[int]], refuses.  An error rolls the transaction back. *)
Definition delete_scan_session (b : Backend) (db : Store) (sid : Z)
  : DBError + Store :=
  if cascade_delete ScanSession.resources
  then match delete_web_resources b db (resources_of db sid) with
       | inl e => inl e
       | inr db' => inr (drop_scan_session db' sid)
       end
  else match resources_of db sid with
       | [] => inr (drop_scan_session db sid)
       | _ :: _ => inl (IntegrityError "NOT NULL web_resources.scan_session_id")
       end.

(** [session.exec(delete(ScanSession).where(ScanSession.id == sid))]: the
    statement goes to the database as it is, past the relationship. *)
Definition delete_scan_session_statement (b : Backend) (db : Store) (sid : Z)
  : DBError + Store :=
  if foreign_keys b && negb (Nat.eqb (List.length (resources_of db sid)) 0)
  then inl (IntegrityError "foreign key")
  else inr (drop_scan_session db sid).

(* ================================================================== *)
(** ** The request intake and the session lifecycle

    [app/models.py] declares the shapes only.  The two operations below are the
    steps of the surrounding application that the specification describes and
    that read and write these shapes. *)

Inductive IntakeError : Type :=
| Rejected (e : ValidationError)
| NotStored (e : DBError).

(** Modelled from the spec: the request-intake step, which is not part of
    [app/models.py].  Sections 3, 6 and 7: the inbound layer supplies a
    [ScanRequest]; a request that fails validation is rejected at this
    boundary, before a session is created; otherwise a [ScanSession] is
    created at scan request time with the request's fields. *)
Definition submit_scan (e : Re.engine) (b : Backend) (now : datetime)
           (db : Store) (draw : Z) (u : string) (un pw tok pl : option string)
  : IntakeError + Store :=
  match ScanRequest.new e u un pw tok pl with
  | inl err => inl (Rejected err)
  | inr req =>
      let s := ScanSession.new now (ScanRequest.target_url req)
                 (ScanSession.kw None None
                    (ScanRequest.username req) (ScanRequest.password req)
                    (ScanRequest.auth_token req) (ScanRequest.payload req)
                    None None None None None) in
      match add_scan_session b db s draw with
      | inl err => inl (NotStored err)
      | inr db' => inr db'
      end
  end.

(** Modelled from the spec: the lifecycle of a session, whose driver (the scan
    orchestrator) is not part of [app/models.py].  Sections 3 and 4:
    [pending -> in_progress -> {completed, failed}]; terminal states are
    final, no transition leaves them. *)
Definition transition (from to : ScanStatus) : bool :=
  match from, to with
  | PENDING, IN_PROGRESS => true
  | IN_PROGRESS, COMPLETED => true
  | IN_PROGRESS, FAILED => true
  | _, _ => false
  end.

Definition terminal (s : ScanStatus) : bool :=
  match s with
  | COMPLETED | FAILED => true
  | PENDING | IN_PROGRESS => false
  end.

(** The position of a status in the transition order. *)
Definition rank (s : ScanStatus) : nat :=
  match s with
  | PENDING => 0
  | IN_PROGRESS => 1
  | COMPLETED | FAILED => 2
  end.

(** Modelled from the spec: one status change of the orchestrator (section
    4.1), carried by the [ScanStatusUpdate] schema.  A change that is no
    transition of the lifecycle is refused ([None]); reaching a terminal state
    sets [completed_at]; the statistics and the error message are taken from
    the update when it gives them. *)
Definition apply_update (now : datetime) (s : ScanSession.t)
           (u : ScanStatusUpdate.t) : option ScanSession.t :=
  if transition (ScanSession.status s) (ScanStatusUpdate.status u)
  then Some
         {| ScanSession.id := ScanSession.id s;
            ScanSession.target_url := ScanSession.target_url s;
            ScanSession.status := ScanStatusUpdate.status u;
            ScanSession.username := ScanSession.username s;
            ScanSession.password := ScanSession.password s;
            ScanSession.auth_token := ScanSession.auth_token s;
            ScanSession.payload := ScanSession.payload s;
            ScanSession.created_at := ScanSession.created_at s;
            ScanSession.completed_at :=
              if terminal (ScanStatusUpdate.status u) then Some now
              else ScanSession.completed_at s;
            ScanSession.error_message :=
              match ScanStatusUpdate.error_message u with
              | Some m => Some m
              | None => ScanSession.error_message s
              end;
            ScanSession.total_resources_found :=
              match ScanStatusUpdate.total_resources_found u with
              | Some n => n
              | None => ScanSession.total_resources_found s
              end;
            ScanSession.scan_duration_seconds :=
              match ScanStatusUpdate.scan_duration_seconds u with
              | Some d => Some d
              | None => ScanSession.scan_duration_seconds s
              end |}
  else None.

(** A session after a sequence of attempted status changes, each with the
    instant it is made at; a refused change leaves the session as it is. *)
Fixpoint lifecycle (s : ScanSession.t)
         (us : list (datetime * ScanStatusUpdate.t)) : ScanSession.t :=
  match us with
  | [] => s
  | (now, u) :: us' =>
      match apply_update now s u with
      | Some s' => lifecycle s' us'
      | None => lifecycle s us'
      end
  end.

(* ================================================================== *)
(** ** Operations on a store, for statements about every reachable store

    An insertion comes with the id that the database draws for it, so a list
    of operations covers every way of handing out ids. *)

Inductive op : Type :=
| AddScanSession (s : ScanSession.t) (draw : Z)
| AddWebResource (r : WebResource.t) (draw : Z)
| AddDownloadHistory (h : DownloadHistory.t) (draw : Z)
| DeleteScanSession (sid : Z)
| DeleteScanSessionStatement (sid : Z).

Definition exec (b : Backend) (db : Store) (o : op) : DBError + Store :=
  match o with
  | AddScanSession s draw => add_scan_session b db s draw
  | AddWebResource r draw => add_web_resource b db r draw
  | AddDownloadHistory h draw => add_download_history b db h draw
  | DeleteScanSession sid => delete_scan_session b db sid
  | DeleteScanSessionStatement sid => delete_scan_session_statement b db sid
  end.

(** A failed operation is rolled back and the next one runs on the store as
    it was. *)
Fixpoint exec_all (b : Backend) (db : Store) (os : list op) : Store :=
  match os with
  | [] => db
  | o :: os' =>
      match exec b db o with
      | inr db' => exec_all b db' os'
      | inl _ => exec_all b db os'
      end
  end.

(** How many stored sessions have the id [sid]. *)
Definition sessions_with_id (db : Store) (sid : Z) : nat :=
  List.length (filter (has_id ScanSession.id sid) (scan_sessions db)).

(** How many stored resources have the session id [sid] and the url [u]. *)
Definition resources_with (db : Store) (sid : Z) (u : string) : nat :=
  List.length
    (filter (fun r => Z.eqb (WebResource.scan_session_id r) sid
                      && String.eqb (WebResource.url r) u)
            (web_resources db)).

(** A string of [n] copies of the character [c]. *)
Fixpoint replicate (n : nat) (c : ascii) : string :=
  match n with
  | O => EmptyString
  | S n' => String c (replicate n' c)
  end.

(** The settings of PostgreSQL, and those of SQLite as it comes. *)
Definition strict : Backend := Build_Backend true true 32 true.
Definition lenient : Backend := Build_Backend false false 64 false.

(* ================================================================== *)
(** ** Sample data *)

Definition example_session : ScanSession.t :=
  ScanSession.new 1700000000 "https://example.com" ScanSession.no_kwargs.

Definition example_resource (sid : Z) : WebResource.t :=
  WebResource.new 1700000005 sid "https://example.com/a.png" "/a.png"
                  IMAGE "png" WebResource.no_kwargs.

(** In the scripts each insertion draws the id that a fresh sequence and the
    largest id so far both give. *)
Definition store_with_one_resource : Store :=
  exec_all strict empty_store
           [AddScanSession example_session 1;
            AddWebResource (example_resource 1) 1].

Definition two_sessions_script : list op :=
  [AddScanSession example_session 1;
   AddScanSession example_session 2;
   AddWebResource (example_resource 1) 1;
   AddWebResource (example_resource 2) 2].

Definition store_with_two_sessions : Store :=
  exec_all strict empty_store two_sessions_script.

(** A failed session whose error message has [n] characters. *)
Definition failed_session (n : nat) : ScanSession.t :=
  ScanSession.new 1700000000 "https://example.com"
    (ScanSession.kw None (Some FAILED) None None None None None
                    (Some 1700000003) (Some (replicate n "x")) None None).

(** A failed download of resource [rid] whose error message has [n]
    characters. *)
Definition failed_download (rid : Z) (n : nat) : DownloadHistory.t :=
  DownloadHistory.new 1700000020 rid
    (DownloadHistory.kw None None None None (Some false)
                        (Some (replicate n "x")) None None).

(** Session ids are pairwise distinct and every resource refers to a stored
    session. *)
Definition consistent (db : Store) : Prop :=
  NoDup (ids_of ScanSession.id (scan_sessions db))
  /\ forall r, In r (web_resources db) ->
               In (WebResource.scan_session_id r)
                  (ids_of ScanSession.id (scan_sessions db)).

(* ================================================================== *)
(** ** The download request, lookups by primary key, deleting a resource *)

Module DownloadRequest.

Record t : Type := mk {
  resource_id : Z;
  client_ip : option string;
  user_agent : option string
}.

Definition columns : list (Column t) :=
  [ Col "resource_id" [] (fun r => VInt (resource_id r));
    Col "client_ip" [max_length 45] (fun r => opt VStr (client_ip r));
    Col "user_agent" [max_length 500] (fun r => opt VStr (user_agent r)) ].

(** [DownloadRequest(resource_id=rid, client_ip=ip, user_agent=ua)] *)
Definition new (e : Re.engine) (rid : Z) (ip ua : option string)
  : ValidationError + t :=
  model_validate e columns (mk rid ip ua).

End DownloadRequest.

Module ResourceResponse.

Record t : Type := mk {
  id : Z;
  url : string;
  relative_path : string;
  resource_type : ResourceType;
  file_extension : string;
  content_type : option string;
  file_size_bytes : option Z;
  last_modified : option string;
  is_downloadable : bool;
  discovered_at : string;
  source_element : option string
}.

Definition columns : list (Column t) :=
  [ Col "id" [] (fun r => VInt (id r));
    Col "url" [] (fun r => VStr (url r));
    Col "relative_path" [] (fun r => VStr (relative_path r));
    Col "resource_type" [] (fun r => VEnum (ResourceType_value (resource_type r)));
    Col "file_extension" [] (fun r => VStr (file_extension r));
    Col "content_type" [] (fun r => opt VStr (content_type r));
    Col "file_size_bytes" [] (fun r => opt VInt (file_size_bytes r));
    Col "last_modified" [] (fun r => opt VStr (last_modified r));
    Col "is_downloadable" [] (fun r => VBool (is_downloadable r));
    Col "discovered_at" [] (fun r => VStr (discovered_at r));
    Col "source_element" [] (fun r => opt VStr (source_element r)) ].

(** [ResourceResponse(id=i, url=u, relative_path=p, resource_type=ty,
    file_extension=ext, content_type=ct, file_size_bytes=sz,
    last_modified=lm, is_downloadable=dl, discovered_at=at,
    source_element=el)]: a schema, so [ty] is validated. *)
Definition new (e : Re.engine) (i : Z) (u p : string)
           (ty : unvalidated ResourceType) (ext : string)
           (ct : option string) (sz : option Z) (lm : option string)
           (dl : bool) (at_ : string) (el : option string)
  : ValidationError + t :=
  match ResourceType_validate ty with
  | Some m => model_validate e columns (mk i u p m ext ct sz lm dl at_ el)
  | None => inl [("resource_type", not_a_member)]
  end.

End ResourceResponse.

(** A resource constructed with a string that is no resource type. *)
Definition exe_resource : WebResource.t :=
  WebResource.construct 1700000005 1 "https://example.com/setup.exe"
                        "/setup.exe" (Raw "exe") "exe" WebResource.no_kwargs.

(** A failed session whose error message is [n] times [x] and then [k]
    spaces. *)
Definition padded_session (n k : nat) : ScanSession.t :=
  ScanSession.new 1700000000 "https://example.com"
    (ScanSession.kw None (Some FAILED) None None None None None
                    (Some 1700000003)
                    (Some (replicate n "x" ++ replicate k " ")) None None).

(** A string of at most [n] characters; an absent string always fits. *)
Definition fits (n : Z) (s : string) : bool :=
  Z.of_nat (String.length s) <=? n.

Definition fits_opt (n : Z) (o : option string) : bool :=
  match o with
  | Some s => fits n s
  | None => true
  end.

(** [session.get(ScanSession, i)] and [session.get(WebResource, i)] *)
Definition get_scan_session (db : Store) (i : Z) : option ScanSession.t :=
  find (has_id ScanSession.id i) (scan_sessions db).


(** [resource.scan_session]: the other side of [ScanSession.resources]. *)
Definition scan_session_of (db : Store) (r : WebResource.t)
  : option ScanSession.t :=
  get_scan_session db (WebResource.scan_session_id r).

(** How many stored resources have the id [rid]. *)
Definition resources_with_id (db : Store) (rid : Z) : nat :=
  List.length (filter (has_id WebResource.id rid) (web_resources db)).

(** The operations of [op] and the deletion of one resource. *)
Inductive action : Type :=
| Do (o : op)
| DeleteWebResource (rid : Z).

Definition perform (b : Backend) (db : Store) (a : action) : DBError + Store :=
  match a with
  | Do o => exec b db o
  | DeleteWebResource rid => delete_web_resource b db rid
  end.

Fixpoint perform_all (b : Backend) (db : Store) (acts : list action) : Store :=
  match acts with
  | [] => db
  | a :: acts' =>
      match perform b db a with
      | inr db' => perform_all b db' acts'
      | inl _ => perform_all b db acts'
      end
  end.

(** Every row has an id and no id is repeated. *)
Definition keyed (T : Type) (get_id : T -> option Z) (rows : list T) : Prop :=
  NoDup (ids_of get_id rows) /\ Forall (fun r => get_id r <> None) rows.

(** Sample rows as they are stored, and a sample sequence of actions. *)
Definition stored_session (i : Z) : ScanSession.t :=
  ScanSession.set_id i example_session.

Definition stored_resource (i : Z) : WebResource.t :=
  WebResource.set_id i (example_resource i).

Definition download_script : list action :=
  [Do (AddScanSession example_session 1);
   Do (AddWebResource (example_resource 1) 1);
   Do (AddDownloadHistory (failed_download 1 20) 1);
   DeleteWebResource 1].

(** The row that an insertion checks, which has the id that is drawn if it
    came without one, and the row that is then stored, with its strings cut to
    the column sizes where the backend enforces them. *)
Definition given (T : Type) (get_id : T -> option Z) (set_id : Z -> T -> T)
           (r : T) (draw : Z) : T :=
  match get_id r with
  | Some _ => r
  | None => set_id draw r
  end.

Definition kept_session (b : Backend) (s : ScanSession.t) (draw : Z)
  : ScanSession.t :=
  let s1 := given ScanSession.id ScanSession.set_id s draw in
  if varchar_limit b then ScanSession.clip s1 else s1.

Definition kept_resource (b : Backend) (r : WebResource.t) (draw : Z)
  : WebResource.t :=
  let r1 := given WebResource.id WebResource.set_id (WebResource.bound r)
                  draw in
  if varchar_limit b then WebResource.clip r1 else r1.

Definition kept_download (b : Backend) (h : DownloadHistory.t) (draw : Z)
  : DownloadHistory.t :=
  let h1 := given DownloadHistory.id DownloadHistory.set_id h draw in
  if varchar_limit b then DownloadHistory.clip h1 else h1.

(** The store with one session, before any resource is added. *)
Definition store_with_session : Store :=
  exec_all strict empty_store [AddScanSession example_session 1].

(** A number that may be absent is in range when it is absent. *)
Definition in_range_opt (b : Backend) (o : option Z) : bool :=
  match o with
  | Some z => in_range b z
  | None => true
  end.

(** A stored row is within its columns: where the backend enforces column
    sizes every sized string fits, every number is in the range of an
    [INTEGER] column and, where the backend checks it, the resource type is
    a member. *)
Definition session_fits (b : Backend) (s : ScanSession.t) : Prop :=
  (varchar_limit b = true ->
   fits 2048 (ScanSession.target_url s)
   && fits_opt 255 (ScanSession.username s)
   && fits_opt 255 (ScanSession.password s)
   && fits_opt 1024 (ScanSession.auth_token s)
   && fits_opt 10000 (ScanSession.payload s)
   && fits_opt 1000 (ScanSession.error_message s) = true)
  /\ in_range_opt b (ScanSession.id s)
     && in_range b (ScanSession.total_resources_found s) = true.

Definition resource_fits (b : Backend) (r : WebResource.t) : Prop :=
  (varchar_limit b = true ->
   fits 2048 (WebResource.url r)
   && fits 1024 (WebResource.relative_path r)
   && fits 10 (WebResource.file_extension r)
   && fits_opt 100 (WebResource.content_type r)
   && fits_opt 50 (WebResource.source_element r) = true)
  /\ in_range_opt b (WebResource.id r)
     && in_range b (WebResource.scan_session_id r)
     && in_range_opt b (WebResource.file_size_bytes r)
     && in_range b (WebResource.download_attempts r) = true
  /\ (enum_check b = true ->
      exists m, WebResource.resource_type r = Member m).

Definition download_fits (b : Backend) (h : DownloadHistory.t) : Prop :=
  (varchar_limit b = true ->
   fits_opt 500 (DownloadHistory.error_message h)
   && fits_opt 45 (DownloadHistory.client_ip h)
   && fits_opt 500 (DownloadHistory.user_agent h) = true)
  /\ in_range_opt b (DownloadHistory.id h)
     && in_range b (DownloadHistory.resource_id h)
     && in_range_opt b (DownloadHistory.file_size_bytes h) = true.

(* ================================================================== *)
(** * Properties *)

(** ** Enumerations and defaults *)

Lemma field_errors_nil (T : Type) (e : Re.engine) (cols : list (Column T))
      (x : T) :
  field_errors e cols x = []
  <-> forallb (fun c => match check_value e (info c) (get c x) with
                        | None => true
                        | Some _ => false
                        end) cols = true.
Proof.
  unfold field_errors. induction cols as [|c cols IH]; cbn; [tauto|].
  destruct (check_value e (info c) (get c x)); cbn.
  - split; discriminate.
  - exact IH.
Qed.

Lemma model_validate_inr (T : Type) (e : Re.engine) (cols : list (Column T))
      (x y : T) :
  model_validate e cols x = inr y
  <-> y = x
      /\ forallb (fun c => match check_value e (info c) (get c x) with
                           | None => true
                           | Some _ => false
                           end) cols = true.
Proof.
  rewrite <- field_errors_nil. unfold model_validate.
  destruct (field_errors e cols x) eqn:E; split.
  - intros H. inversion H. auto.
  - intros [-> _]. reflexivity.
  - discriminate.
  - intros [_ H]. discriminate.
Qed.

Lemma ResourceType_of_value_value (r : ResourceType) :
  ResourceType_of_value (ResourceType_value r) = Some r.
Proof. destruct r; reflexivity. Qed.

Lemma ResourceType_of_value_sound (s : string) (r : ResourceType) :
  ResourceType_of_value s = Some r -> ResourceType_value r = s.
Proof.
  unfold ResourceType_of_value. intros H.
  apply find_some in H. destruct H as [_ H].
  now apply String.eqb_eq.
Qed.

(** C7: a [ScanSession] constructed without a [status] argument has status
    [pending], whatever the other arguments are. *)
Theorem ScanSession_default_status
        (now : datetime) (u : string) (k : ScanSession.kwargs) :
  ScanSession.status_ k = None ->
  ScanSession.status (ScanSession.new now u k) = PENDING.
Proof. intros H. cbn. now rewrite H. Qed.

Lemma ScanSession_default_status_witness :
  ScanSession.status_ ScanSession.no_kwargs = None
  /\ ScanSession.status
       (ScanSession.new 1700000000 "https://example.com" ScanSession.no_kwargs)
     = PENDING.
Proof.
  split; [reflexivity|].
  apply (@ScanSession_default_status 1700000000 "https://example.com"
           ScanSession.no_kwargs).
  reflexivity.
Defined.

(** C8: a [WebResource] constructed without the arguments [download_attempts],
    [last_download_at] and [is_downloadable] has no download attempt, no last
    download instant, and is downloadable. *)
Theorem WebResource_defaults
        (now : datetime) (sid : Z) (u p : string) (ty : ResourceType)
        (ext : string) (k : WebResource.kwargs) :
  WebResource.download_attempts_ k = None ->
  WebResource.last_download_at_ k = None ->
  WebResource.is_downloadable_ k = None ->
  let w := WebResource.new now sid u p ty ext k in
  WebResource.download_attempts w = 0
  /\ WebResource.last_download_at w = None
  /\ WebResource.is_downloadable w = true.
Proof. intros H1 H2 H3. cbn. rewrite H1, H2, H3. auto. Qed.

Lemma WebResource_defaults_witness :
  let w := WebResource.new 1700000000 1 "https://example.com/a.png" "/a.png"
                           IMAGE "png" WebResource.no_kwargs in
  WebResource.download_attempts w = 0
  /\ WebResource.last_download_at w = None
  /\ WebResource.is_downloadable w = true.
Proof.
  apply (@WebResource_defaults 1700000000 1 "https://example.com/a.png"
           "/a.png" IMAGE "png" WebResource.no_kwargs); reflexivity.
Defined.

(** C9: a [DownloadHistory] entry constructed without a [success] argument
    records a successful attempt. *)
Theorem DownloadHistory_default_success
        (now : datetime) (rid : Z) (k : DownloadHistory.kwargs) :
  DownloadHistory.success_ k = None ->
  DownloadHistory.success (DownloadHistory.new now rid k) = true.
Proof. intros H. cbn. now rewrite H. Qed.

Lemma DownloadHistory_default_success_witness :
  DownloadHistory.success_ DownloadHistory.no_kwargs = None
  /\ DownloadHistory.success
       (DownloadHistory.new 1700000000 7 DownloadHistory.no_kwargs) = true.
Proof.
  split; [reflexivity|].
  apply (@DownloadHistory_default_success 1700000000 7
           DownloadHistory.no_kwargs).
  reflexivity.
Defined.

(** ** The target url pattern *)

Lemma run_lits (e : Re.engine) (lit : string) (r : Re.regex) :
  forall pos s k,
    Re.run e (Re.lits lit r) pos s k
    = match strip_prefix lit s with
      | Some rest => Re.run e r (pos + String.length lit) rest k
      | None => false
      end.
Proof.
  induction lit as [|c lit IH]; intros pos s k.
  - cbn. now rewrite Nat.add_0_r.
  - cbn [Re.lits Re.run strip_prefix String.length].
    destruct s as [|a s']; [reflexivity|].
    destruct (Ascii.eqb a c); [|reflexivity].
    rewrite IH. now rewrite Nat.add_succ_r.
Qed.

Lemma strip_prefix_app (p q : string) :
  forall s, strip_prefix (p ++ q) s
            = match strip_prefix p s with
              | Some r => strip_prefix q r
              | None => None
              end.
Proof.
  induction p as [|a p IH]; intros s; cbn; [reflexivity|].
  destruct s as [|b s']; [reflexivity|].
  destruct (Ascii.eqb b a); [apply IH|reflexivity].
Qed.

Lemma strip_prefix_Some (p : string) :
  forall s r, strip_prefix p s = Some r -> s = p ++ r.
Proof.
  induction p as [|a p IH]; intros s r; cbn.
  - congruence.
  - destruct s as [|b s']; [discriminate|].
    destruct (Ascii.eqb b a) eqn:E; [|discriminate].
    apply Ascii.eqb_eq in E. subst b. intros H. now rewrite (IH _ _ H).
Qed.

Lemma star_no_space (e : Re.engine)
      (body : nat -> string -> (nat -> string -> bool) -> bool)
      (k : nat -> string -> bool) :
  (forall p s k', body p s k' = Re.run e (Re.NotIn [Re.Space]) p s k') ->
  (forall p s, k p s = Re.run e Re.Eol p s (fun _ _ => true)) ->
  forall s fuel pos,
    (String.length s <= fuel)%nat ->
    Re.star body k fuel pos s = no_space_to_end e s.
Proof.
  intros Hbody Hk.
  assert (Hend : forall p s, k p s = Re.at_end e s).
  { intros p s. rewrite Hk. cbn. now destruct (Re.at_end e s). }
  induction s as [|a s IH]; intros fuel pos Hfuel.
  - destruct fuel; cbn; now rewrite Hbody, Hend.
  - destruct fuel as [|fuel]; [cbn in Hfuel; lia|].
    cbn [Re.star no_space_to_end]. rewrite Hbody, Hend. cbn [Re.run].
    unfold Re.in_class. cbn [existsb Re.in_item]. rewrite orb_false_r.
    destruct (Re.is_space e a); cbn [negb andb orb]; [reflexivity|].
    assert (L : (String.length s <? String.length (String a s))%nat = true)
      by (apply Nat.ltb_lt; cbn; lia).
    rewrite L. rewrite IH by (cbn in Hfuel; lia). reflexivity.
Qed.

Lemma run_host_and_rest (e : Re.engine) (pos : nat) (s : string) :
  Re.run e
    (Re.Seq (Re.NotIn [Re.Space; Re.Ch "/"; Re.Ch "$"; Re.Ch "."; Re.Ch "?";
                       Re.Ch "#"])
       (Re.Seq Re.Dot (Re.Seq (Re.Star (Re.NotIn [Re.Space])) Re.Eol)))
    pos s (fun _ _ => true)
  = host_and_rest e s.
Proof.
  destruct s as [|c1 [|c2 rest]]; cbn [Re.run host_and_rest].
  - reflexivity.
  - destruct (Re.in_class _ _ c1); reflexivity.
  - unfold Re.in_class at 1. cbn [existsb Re.in_item].
    rewrite (@star_no_space e) by (reflexivity || lia).
    destruct (Re.is_space e c1 || _); cbn [negb andb]; [reflexivity|].
    destruct (Ascii.eqb c2 Re.LF); reflexivity.
Qed.

Lemma run_Opt_Lit (e : Re.engine) (c : ascii) (r : Re.regex) pos s k :
  Re.run e (Re.Seq (Re.Opt (Re.Lit c)) r) pos s k
  = match s with
    | String a s' => if Ascii.eqb a c then Re.run e r (S pos) s' k else false
    | EmptyString => false
    end
    || Re.run e r pos s k.
Proof. destruct s; reflexivity. Qed.

(** The pattern and its reading in words accept the same strings. *)
Lemma target_url_regex_is_http_url (e : Re.engine) (u : string) :
  Re.matches e ScanRequest.target_url_regex u = is_http_url e u.
Proof.
  unfold Re.matches, ScanRequest.target_url_regex, is_http_url.
  cbn [Re.run Nat.eqb]. rewrite run_lits.
  change "http://" with ("http" ++ "://").
  change "https://" with ("http" ++ "s://").
  rewrite !strip_prefix_app.
  destruct (strip_prefix "http" u) as [r1|]; [|reflexivity].
  rewrite run_Opt_Lit, !run_lits.
  destruct r1 as [|a r]; [reflexivity|].
  change (strip_prefix "s://" (String a r))
    with (if Ascii.eqb a "s" then strip_prefix "://" r else None).
  destruct (Ascii.eqb a "s") eqn:Es.
  - apply Ascii.eqb_eq in Es. subst a. rewrite run_lits.
    change (strip_prefix "://" (String "s" r)) with (@None string).
    rewrite orb_false_r.
    destruct (strip_prefix "://" r); [apply run_host_and_rest|reflexivity].
  - cbn [orb].
    destruct (strip_prefix "://" (String a r));
      [apply run_host_and_rest|reflexivity].
Qed.

Lemma strip_prefix_prefix (p : string) :
  forall s r, strip_prefix p s = Some r -> String.prefix p s = true.
Proof.
  induction p as [|a p IH]; intros s r; cbn.
  - now destruct s.
  - destruct s as [|b s']; [discriminate|].
    destruct (Ascii.eqb b a) eqn:E; [|discriminate].
    apply Ascii.eqb_eq in E. subst b. intros H. cbn.
    destruct (ascii_dec a a) as [_|N]; [now apply IH with r|congruence].
Qed.

(** What an accepted target url looks like. *)
Lemma target_url_shape (e : Re.engine) (u : string) :
  Re.matches e ScanRequest.target_url_regex u = true ->
  exists scheme s,
    u = scheme ++ s
    /\ (scheme = "http://" \/ scheme = "https://")
    /\ String.prefix scheme u = true
    /\ host_and_rest e s = true.
Proof.
  rewrite target_url_regex_is_http_url. unfold is_http_url.
  destruct (strip_prefix "http://" u) as [s|] eqn:E1.
  - intros H. exists "http://", s.
    repeat split; eauto using strip_prefix_Some, strip_prefix_prefix.
  - destruct (strip_prefix "https://" u) as [s|] eqn:E2; [|discriminate].
    intros H. exists "https://", s.
    repeat split; eauto using strip_prefix_Some, strip_prefix_prefix.
Qed.

Lemma ScanRequest_new_accepts (u : string)
      (un pw tok pl : option string) (req : ScanRequest.t) :
  ScanRequest.new Re.PythonRe u un pw tok pl = inr req ->
  req = ScanRequest.mk u un pw tok pl
  /\ Re.matches Re.PythonRe ScanRequest.target_url_regex u = true.
Proof.
  unfold ScanRequest.new, model_validate.
  destruct (field_errors Re.PythonRe ScanRequest.columns
                         (ScanRequest.mk u un pw tok pl))
    as [|x errs] eqn:E; [|discriminate].
  intros H. inversion H; subst req. split; [reflexivity|].
  unfold field_errors, ScanRequest.columns in E. cbn [flat_map] in E.
  apply app_eq_nil in E. destruct E as [E _].
  cbn [info get ScanRequest.target_url check_value max_length_of regex_of
       pattern_of applies_regex] in E.
  destruct (2048 <? _); [discriminate|].
  destruct (Re.matches Re.PythonRe ScanRequest.target_url_regex u);
    [reflexivity|discriminate].
Qed.

Lemma ScanRequest_new_rejects (u : string) (un pw tok pl : option string) :
  Re.matches Re.PythonRe ScanRequest.target_url_regex u = false ->
  exists kind rest,
    ScanRequest.new Re.PythonRe u un pw tok pl
    = inl (("target_url", kind) :: rest).
Proof.
  intros M. unfold ScanRequest.new, model_validate, field_errors,
            ScanRequest.columns.
  cbn [flat_map info get name ScanRequest.target_url check_value
       max_length_of regex_of pattern_of applies_regex].
  rewrite M.
  destruct (2048 <? _); cbn [app]; eauto.
Qed.

(** C2: what the code does with the pattern of [target_url].  Where the
    [regex] keyword reaches the validator (pydantic 1), the url is validated
    as the claim says: an accepted request carries the url it was given, that
    url matches [^https?://[^\s/$.?#].[^\s]*$] and so begins with [http://] or
    [https://]; a url that does not match is rejected with a validation error
    that names [target_url], and the intake step stops there and creates no
    session.  Where the keyword is dropped (SQLModel on pydantic 2), the url
    [ftp://example.com], which does not match the pattern, is accepted, and
    the intake step creates a session for it. *)
Theorem ScanRequest_target_url_validated
        (u : string) (un pw tok pl : option string) :
  (forall req,
      ScanRequest.new Re.PythonRe u un pw tok pl = inr req ->
      ScanRequest.target_url req = u
      /\ Re.matches Re.PythonRe ScanRequest.target_url_regex u = true
      /\ (String.prefix "http://" u = true
          \/ String.prefix "https://" u = true))
  /\ (Re.matches Re.PythonRe ScanRequest.target_url_regex u = false ->
      (exists err,
          ScanRequest.new Re.PythonRe u un pw tok pl = inl err
          /\ In "target_url" (map fst err))
      /\ (forall b now db draw,
             exists err,
               submit_scan Re.PythonRe b now db draw u un pw tok pl
               = inl (Rejected err)))
  /\ Re.matches Re.RustRegex ScanRequest.target_url_regex "ftp://example.com"
     = false
  /\ ScanRequest.new Re.RustRegex "ftp://example.com" None None None None
     = inr (ScanRequest.mk "ftp://example.com" None None None None)
  /\ exists db',
      submit_scan Re.RustRegex lenient 1700000000 empty_store 1
                  "ftp://example.com" None None None None = inr db'
      /\ map ScanSession.target_url (scan_sessions db')
         = ["ftp://example.com"].
Proof.
  split.
  - intros req H. apply ScanRequest_new_accepts in H. destruct H as [-> M].
    split; [reflexivity|]. split; [exact M|].
    destruct (target_url_shape _ _ M) as (scheme & s & _ & [-> | ->] & P & _);
      auto.
  - split.
    + intros M.
      destruct (ScanRequest_new_rejects u un pw tok pl M) as (kind & rest & E).
      split.
      * eexists. split; [exact E|]. cbn. now left.
      * intros b now db draw. unfold submit_scan. rewrite E. eauto.
    + split; [reflexivity|]. split; [reflexivity|].
      eexists. split; vm_compute; reflexivity.
Qed.

(** C10: what the code does with [http://a].  The url begins with [http://]
    and does not match the pattern, whose matches consist of the scheme
    [http://] or [https://] and at least two more characters, the first of
    which is neither whitespace nor one of [/ $ . ? #].  Where the [regex]
    keyword reaches the validator (pydantic 1) a request for [http://a] fails
    validation; where it is dropped (SQLModel on pydantic 2) the request is
    accepted. *)
Theorem single_character_host_rejected :
  String.prefix "http://" "http://a" = true
  /\ (forall e, Re.matches e ScanRequest.target_url_regex "http://a" = false)
  /\ ScanRequest.new Re.PythonRe "http://a" None None None None
     = inl [("target_url", string_pattern_mismatch)]
  /\ (forall e u,
         Re.matches e ScanRequest.target_url_regex u = true ->
         exists scheme c1 c2 rest,
           u = scheme ++ String c1 (String c2 rest)
           /\ (scheme = "http://" \/ scheme = "https://")
           /\ Re.is_space e c1 = false
           /\ existsb (Ascii.eqb c1) ["/"; "$"; "."; "?"; "#"]%char = false)
  /\ ScanRequest.new Re.RustRegex "http://a" None None None None
     = inr (ScanRequest.mk "http://a" None None None None).
Proof.
  split; [reflexivity|]. split; [now intros []|]. split; [reflexivity|].
  split; [|reflexivity].
  intros e u M.
  destruct (target_url_shape _ _ M) as (scheme & s & -> & Hs & _ & H).
  destruct s as [|c1 [|c2 rest]]; try discriminate.
  exists scheme, c1, c2, rest. split; [reflexivity|]. split; [exact Hs|].
  unfold host_and_rest in H.
  apply andb_true_iff in H. destruct H as [H _].
  apply andb_true_iff in H. destruct H as [H _].
  apply negb_true_iff in H. apply orb_false_iff in H. exact H.
Qed.

(** ** The session lifecycle *)

Lemma apply_update_status (now : datetime) (s s' : ScanSession.t)
      (u : ScanStatusUpdate.t) :
  apply_update now s u = Some s' ->
  ScanSession.status s' = ScanStatusUpdate.status u
  /\ transition (ScanSession.status s) (ScanSession.status s') = true.
Proof.
  unfold apply_update.
  destruct (transition (ScanSession.status s) (ScanStatusUpdate.status u))
    eqn:T; [|discriminate].
  intros H. inversion H; subst s'. cbn. auto.
Qed.

Lemma transition_rank (a b : ScanStatus) :
  transition a b = true -> (rank a < rank b)%nat /\ terminal a = false.
Proof. destruct a, b; cbn; intros H; try discriminate; auto. Qed.

Lemma lifecycle_app (us1 us2 : list (datetime * ScanStatusUpdate.t)) :
  forall s, lifecycle s (us1 ++ us2) = lifecycle (lifecycle s us1) us2.
Proof.
  induction us1 as [|[now u] us1 IH]; intros s; cbn; [reflexivity|].
  destruct (apply_update now s u); apply IH.
Qed.

Lemma lifecycle_monotone (us : list (datetime * ScanStatusUpdate.t)) :
  forall s,
    (rank (ScanSession.status s)
     <= rank (ScanSession.status (lifecycle s us)))%nat.
Proof.
  induction us as [|[now u] us IH]; intros s; cbn; [lia|].
  destruct (apply_update now s u) as [s'|] eqn:E; [|apply IH].
  apply apply_update_status in E. destruct E as [_ T].
  apply transition_rank in T. specialize (IH s'). lia.
Qed.

Lemma lifecycle_terminal (us : list (datetime * ScanStatusUpdate.t)) :
  forall s, terminal (ScanSession.status s) = true -> lifecycle s us = s.
Proof.
  induction us as [|[now u] us IH]; intros s Ht; cbn; [reflexivity|].
  destruct (apply_update now s u) as [s'|] eqn:E; [|now apply IH].
  apply apply_update_status in E. destruct E as [_ T].
  apply transition_rank in T. destruct T as [_ T]. congruence.
Qed.

(** C3: the status of a session is always one of pending, in_progress,
    completed and failed, and it moves along
    [pending -> in_progress -> {completed, failed}] only.  Over any sequence of
    attempted status changes: the status stays among the four members; every
    change that is carried out is a transition of the lifecycle; the status
    never moves back in the transition order; and once the session has reached
    a terminal state, whatever is attempted afterwards leaves its status as it
    is. *)
Theorem ScanSession_status_lifecycle
        (s : ScanSession.t) (us us' : list (datetime * ScanStatusUpdate.t)) :
  map ScanStatus_value ScanStatus_members
  = ["pending"; "in_progress"; "completed"; "failed"]
  /\ In (ScanSession.status (lifecycle s us)) ScanStatus_members
  /\ (forall now u s1,
         apply_update now s u = Some s1 ->
         transition (ScanSession.status s) (ScanSession.status s1) = true)
  /\ (rank (ScanSession.status s)
      <= rank (ScanSession.status (lifecycle s us)))%nat
  /\ (terminal (ScanSession.status (lifecycle s us)) = true ->
      ScanSession.status (lifecycle s (us ++ us'))
      = ScanSession.status (lifecycle s us)).
Proof.
  split; [reflexivity|]. split.
  - destruct (ScanSession.status (lifecycle s us)); cbn; tauto.
  - split.
    + intros now u s1 H. now apply apply_update_status in H.
    + split; [apply lifecycle_monotone|].
      intros Ht. rewrite lifecycle_app. now rewrite lifecycle_terminal.
Qed.

Lemma ScanSession_status_lifecycle_witness :
  let s := ScanSession.new 1700000000 "https://example.com"
                           ScanSession.no_kwargs in
  let run := [(1700000001, ScanStatusUpdate.mk IN_PROGRESS None None None);
              (1700000009, ScanStatusUpdate.mk COMPLETED None (Some 5) None)] in
  let later := [(1700000010, ScanStatusUpdate.mk PENDING None None None);
                (1700000011, ScanStatusUpdate.mk FAILED (Some "late") None None)] in
  ScanSession.status (lifecycle s run) = COMPLETED
  /\ ScanSession.status (lifecycle s (run ++ later))
     = ScanSession.status (lifecycle s run).
Proof.
  split; [reflexivity|].
  apply (proj2 (proj2 (proj2 (proj2
           (ScanSession_status_lifecycle
              (ScanSession.new 1700000000 "https://example.com"
                               ScanSession.no_kwargs)
              [(1700000001, ScanStatusUpdate.mk IN_PROGRESS None None None);
               (1700000009, ScanStatusUpdate.mk COMPLETED None (Some 5) None)]
              [(1700000010, ScanStatusUpdate.mk PENDING None None None);
               (1700000011,
                ScanStatusUpdate.mk FAILED (Some "late") None None)]))))).
  reflexivity.
Defined.

(** ** The store *)

Lemma take_drop (n : nat) :
  forall s, take n s ++ drop n s = s.
Proof.
  induction n as [|n IH]; intros s; [reflexivity|].
  destruct s as [|c s]; [reflexivity|]. cbn. now rewrite IH.
Qed.

Lemma take_length (n : nat) :
  forall s, (String.length (take n s) <= n)%nat.
Proof.
  induction n as [|n IH]; intros s; [cbn; lia|].
  destruct s as [|c s]; cbn; [lia|]. specialize (IH s). lia.
Qed.

Lemma take_all (n : nat) :
  forall s, (String.length s <= n)%nat -> take n s = s.
Proof.
  induction n as [|n IH]; intros s H.
  - destruct s; [reflexivity|cbn in H; lia].
  - destruct s as [|c s]; [reflexivity|]. cbn. rewrite IH; [reflexivity|].
    cbn in H. lia.
Qed.

Lemma fits_take (n : Z) (s : string) :
  0 <= n -> fits n (take (Z.to_nat n) s) = true.
Proof.
  intros H. unfold fits. apply Z.leb_le.
  pose proof (take_length (Z.to_nat n) s). lia.
Qed.
Section Ids.

Variable T : Type.
Variable get_id : T -> option Z.

Lemma ids_of_app (xs ys : list T) :
  ids_of get_id (xs ++ ys) = (ids_of get_id xs ++ ids_of get_id ys)%list.
Proof.
  induction xs as [|x xs IH]; cbn; [reflexivity|].
  destruct (get_id x); cbn; now rewrite IH.
Qed.

Lemma existsb_id (rows : list T) (i : Z) :
  existsb (fun r' => value_eqb (opt VInt (get_id r')) (VInt i)) rows = true
  <-> In i (ids_of get_id rows).
Proof.
  induction rows as [|x rows IH]; cbn; [intuition discriminate|].
  destruct (get_id x) as [j|]; cbn.
  - rewrite orb_true_iff, IH, Z.eqb_eq. intuition.
  - exact IH.
Qed.

Lemma has_id_count (rows : list T) (i : Z) :
  NoDup (ids_of get_id rows) ->
  In i (ids_of get_id rows) ->
  List.length (filter (has_id get_id i) rows) = 1%nat.
Proof.
  induction rows as [|x rows IH]; cbn; [tauto|].
  unfold has_id at 1. destruct (get_id x) as [j|] eqn:E.
  - intros ND [->|H].
    + rewrite Z.eqb_refl. cbn. f_equal.
      inversion ND as [|? ? Hn _]; subst.
      clear - Hn. induction rows as [|y rows IH]; cbn; [reflexivity|].
      cbn in Hn. unfold has_id at 1.
      destruct (get_id y) as [k|].
      * destruct (Z.eqb_spec k i) as [->|N]; [cbn in Hn; tauto|].
        apply IH. cbn in Hn. tauto.
      * now apply IH.
    + inversion ND as [|? ? Hn ND']; subst.
      destruct (Z.eqb_spec j i) as [->|N]; [tauto|]. now apply IH.
  - intros ND H. now apply IH.
Qed.

Lemma ids_of_filter_out (rows : list T) (i : Z) :
  ids_of get_id (filter (fun r => negb (has_id get_id i r)) rows)
  = filter (fun j => negb (Z.eqb j i)) (ids_of get_id rows).
Proof.
  induction rows as [|x rows IH]; cbn; [reflexivity|].
  unfold has_id at 1. destruct (get_id x) as [j|] eqn:E; cbn.
  - destruct (Z.eqb j i); cbn; rewrite ?E; now rewrite IH.
  - now rewrite E.
Qed.

End Ids.

Lemma existsb_Z_In (i : Z) (l : list Z) :
  existsb (Z.eqb i) l = true <-> In i l.
Proof.
  rewrite existsb_exists. split.
  - intros (x & H & E). apply Z.eqb_eq in E. now subst.
  - intros H. exists i. split; [exact H|apply Z.eqb_refl].
Qed.

Lemma existsb_id_false (T : Type) (get_id : T -> option Z)
      (rows : list T) (i : Z) :
  ~ In i (ids_of get_id rows) ->
  existsb (fun r' => value_eqb (opt VInt (get_id r')) (VInt i)) rows = false.
Proof.
  intros N. apply not_true_is_false. intros H. now apply existsb_id in H.
Qed.

Lemma NoDup_snoc (A : Type) (l : list A) (a : A) :
  NoDup l -> ~ In a l -> NoDup (l ++ [a]).
Proof.
  induction l as [|x l IH]; cbn; intros ND N.
  - constructor; [tauto|constructor].
  - inversion ND as [|? ? Hx ND']; subst. constructor.
    + rewrite in_app_iff. cbn. intuition congruence.
    + apply IH; tauto.
Qed.

Section Rows.

Variable T : Type.
Variable cols : list (Column T).

(** The row that an insertion checks and stores. *)
Lemma insert_row_inr_iff (get_id : T -> option Z) (set_id : Z -> T -> T)
      (clip : T -> T) (b : Backend) (refs : string -> list Z)
      (rows rows' : list T) (r : T) (draw : Z) :
  insert_row cols get_id set_id clip b refs rows r draw = inr rows'
  <-> exists r1 r',
      r1 = match get_id r with Some _ => r | None => set_id draw r end
      /\ r' = (if varchar_limit b then clip r1 else r1)
      /\ rows' = (rows ++ [r'])%list
      /\ (varchar_limit b = true -> over_length cols r1 = None)
      /\ out_of_range cols b r' = None
      /\ key_conflict cols rows r' = false
      /\ (foreign_keys b = true -> dangling cols refs r' = false).
Proof.
  unfold insert_row.
  set (r1 := match get_id r with Some _ => r | None => set_id draw r end).
  split.
  - intros H. exists r1, (if varchar_limit b then clip r1 else r1).
    split; [reflexivity|]. split; [reflexivity|].
    destruct (varchar_limit b).
    + destruct (over_length cols r1); [discriminate|].
      destruct (out_of_range cols b (clip r1)); [discriminate|].
      destruct (key_conflict cols rows (clip r1)); [discriminate|].
      destruct (foreign_keys b); cbn [andb] in H.
      * destruct (dangling cols refs (clip r1)); [discriminate|].
        inversion H. repeat split; auto.
      * inversion H. repeat split; auto; discriminate.
    + destruct (out_of_range cols b r1); [discriminate|].
      destruct (key_conflict cols rows r1); [discriminate|].
      destruct (foreign_keys b); cbn [andb] in H.
      * destruct (dangling cols refs r1); [discriminate|].
        inversion H. repeat split; auto; discriminate.
      * inversion H. repeat split; auto; discriminate.
  - intros (x & r' & -> & -> & -> & L & R & K & D).
    destruct (varchar_limit b).
    + rewrite (L eq_refl), R, K.
      destruct (foreign_keys b); cbn [andb]; [rewrite (D eq_refl)|];
        reflexivity.
    + rewrite R, K.
      destruct (foreign_keys b); cbn [andb]; [rewrite (D eq_refl)|];
        reflexivity.
Qed.

Lemma over_length_None (r : T) (c : Column T) (n : Z) (s : string) :
  over_length cols r = None ->
  In c cols ->
  max_length_of (info c) = Some n ->
  get c r = VStr s ->
  too_long n s = false.
Proof.
  unfold over_length. intros H Hc Hn Hs.
  destruct (find _ cols) eqn:F; [discriminate|].
  pose proof (find_none _ _ F _ Hc) as N. cbn in N.
  now rewrite Hn, Hs in N.
Qed.

Lemma out_of_range_None_iff (b : Backend) (r : T) :
  out_of_range cols b r = None
  <-> forallb (fun c => match get c r with
                        | VInt z => in_range b z
                        | _ => true
                        end) cols = true.
Proof.
  unfold out_of_range.
  induction cols as [|c cs IH]; cbn [find forallb option_map]; [tauto|].
  destruct (get c r); cbn [negb andb option_map]; try exact IH.
  destruct (in_range b z); cbn [negb andb option_map]; [exact IH|].
  split; discriminate.
Qed.

End Rows.

Lemma ScanSession_key_conflict (rows : list ScanSession.t) (s : ScanSession.t) :
  key_conflict ScanSession.columns rows s
  = match ScanSession.id s with
    | Some i =>
        existsb (fun r' => value_eqb (opt VInt (ScanSession.id r')) (VInt i))
                rows
    | None => false
    end.
Proof.
  unfold key_conflict, ScanSession.columns.
  cbn [existsb info get is_primary_key is_unique orb andb].
  rewrite !orb_false_r. now destruct (ScanSession.id s).
Qed.

Lemma WebResource_key_conflict (rows : list WebResource.t) (r : WebResource.t) :
  key_conflict WebResource.columns rows r
  = match WebResource.id r with
    | Some i =>
        existsb (fun r' => value_eqb (opt VInt (WebResource.id r')) (VInt i))
                rows
    | None => false
    end.
Proof.
  unfold key_conflict, WebResource.columns.
  cbn [existsb info get is_primary_key is_unique orb andb].
  rewrite !orb_false_r. now destruct (WebResource.id r).
Qed.

Lemma DownloadHistory_key_conflict (rows : list DownloadHistory.t)
      (h : DownloadHistory.t) :
  key_conflict DownloadHistory.columns rows h
  = match DownloadHistory.id h with
    | Some i =>
        existsb (fun r' => value_eqb (opt VInt (DownloadHistory.id r')) (VInt i))
                rows
    | None => false
    end.
Proof.
  unfold key_conflict, DownloadHistory.columns.
  cbn [existsb info get is_primary_key is_unique orb andb].
  rewrite !orb_false_r. now destruct (DownloadHistory.id h).
Qed.

Lemma ScanSession_not_dangling (refs : string -> list Z) (s : ScanSession.t) :
  dangling ScanSession.columns refs s = false.
Proof. reflexivity. Qed.

Lemma WebResource_dangling (db : Store) (r : WebResource.t) :
  dangling WebResource.columns (referenced db) r
  = negb (existsb (Z.eqb (WebResource.scan_session_id r))
                  (ids_of ScanSession.id (scan_sessions db))).
Proof.
  unfold dangling, WebResource.columns.
  cbn [existsb info get foreign_key_of opt].
  destruct (WebResource.content_type r), (WebResource.file_size_bytes r),
    (WebResource.last_modified r), (WebResource.last_download_at r),
    (WebResource.source_element r), (WebResource.id r);
    cbn [opt]; rewrite ?orb_false_r; reflexivity.
Qed.

Lemma DownloadHistory_dangling (db : Store) (h : DownloadHistory.t) :
  dangling DownloadHistory.columns (referenced db) h
  = negb (existsb (Z.eqb (DownloadHistory.resource_id h))
                  (ids_of WebResource.id (web_resources db))).
Proof.
  unfold dangling, DownloadHistory.columns.
  cbn [existsb info get foreign_key_of opt].
  destruct (DownloadHistory.id h), (DownloadHistory.file_size_bytes h),
    (DownloadHistory.download_duration_seconds h),
    (DownloadHistory.error_message h), (DownloadHistory.client_ip h),
    (DownloadHistory.user_agent h);
    cbn [opt]; rewrite ?orb_false_r; reflexivity.
Qed.

(** A number that may be absent is in range when it is absent. *)
Lemma in_range_of_opt (b : Backend) (o : option Z) :
  match opt VInt o with
  | VInt z => in_range b z
  | _ => true
  end = in_range_opt b o.
Proof. now destruct o. Qed.

Lemma ScanSession_out_of_range (b : Backend) (s : ScanSession.t) :
  out_of_range ScanSession.columns b s = None
  <-> in_range_opt b (ScanSession.id s)
      && in_range b (ScanSession.total_resources_found s) = true.
Proof.
  rewrite out_of_range_None_iff. unfold ScanSession.columns.
  cbn [forallb info get]. rewrite in_range_of_opt.
  destruct (ScanSession.username s), (ScanSession.password s),
    (ScanSession.auth_token s), (ScanSession.payload s),
    (ScanSession.completed_at s), (ScanSession.error_message s),
    (ScanSession.scan_duration_seconds s);
    cbn [opt andb]; rewrite ?andb_true_r; tauto.
Qed.

Lemma WebResource_out_of_range (b : Backend) (r : WebResource.t) :
  out_of_range WebResource.columns b r = None
  <-> in_range_opt b (WebResource.id r)
      && in_range b (WebResource.scan_session_id r)
      && in_range_opt b (WebResource.file_size_bytes r)
      && in_range b (WebResource.download_attempts r) = true.
Proof.
  rewrite out_of_range_None_iff. unfold WebResource.columns.
  cbn [forallb info get]. rewrite !in_range_of_opt.
  destruct (WebResource.resource_type r), (WebResource.content_type r),
    (WebResource.last_modified r), (WebResource.last_download_at r),
    (WebResource.source_element r);
    cbn [opt andb]; rewrite ?andb_true_r, !andb_true_iff; tauto.
Qed.

Lemma DownloadHistory_out_of_range (b : Backend) (h : DownloadHistory.t) :
  out_of_range DownloadHistory.columns b h = None
  <-> in_range_opt b (DownloadHistory.id h)
      && in_range b (DownloadHistory.resource_id h)
      && in_range_opt b (DownloadHistory.file_size_bytes h) = true.
Proof.
  rewrite out_of_range_None_iff. unfold DownloadHistory.columns.
  cbn [forallb info get]. rewrite !in_range_of_opt.
  destruct (DownloadHistory.download_duration_seconds h),
    (DownloadHistory.error_message h), (DownloadHistory.client_ip h),
    (DownloadHistory.user_agent h);
    cbn [opt andb]; rewrite ?andb_true_r, !andb_true_iff; tauto.
Qed.

(** The insertions, in terms of the checks they make. *)
Lemma add_scan_session_inr (b : Backend) (db db' : Store)
      (s : ScanSession.t) (draw : Z) :
  add_scan_session b db s draw = inr db'
  <-> db' = Build_Store (scan_sessions db ++ [kept_session b s draw])
                        (web_resources db) (download_history db)
      /\ (varchar_limit b = true ->
          over_length ScanSession.columns
                      (given ScanSession.id ScanSession.set_id s draw) = None)
      /\ out_of_range ScanSession.columns b (kept_session b s draw) = None
      /\ (forall i, ScanSession.id (kept_session b s draw) = Some i ->
                    ~ In i (ids_of ScanSession.id (scan_sessions db))).
Proof.
  unfold add_scan_session, kept_session, given. cbv zeta. split.
  - destruct (insert_row _ _ _ _ _ _ _ s draw) as [|rows'] eqn:E;
      [discriminate|].
    intros H. inversion H; subst db'. clear H.
    apply insert_row_inr_iff in E.
    destruct E as (s1 & s' & -> & -> & -> & L & R & K & _).
    repeat split; trivial.
    intros i Hi Hin. rewrite ScanSession_key_conflict, Hi in K.
    apply existsb_id in Hin. congruence.
  - intros (-> & L & R & K).
    match goal with
    | |- match ?X with _ => _ end = inr (Build_Store ?rows _ _) =>
        assert (E : X = inr rows)
    end.
    { apply insert_row_inr_iff. eexists _, _. repeat split; trivial.
      rewrite ScanSession_key_conflict.
      match goal with
      | |- match ScanSession.id ?x with _ => _ end = _ =>
          destruct (ScanSession.id x) as [i|] eqn:Hi; [|reflexivity]
      end.
      apply existsb_id_false. now apply K. }
    now rewrite E.
Qed.

Lemma add_web_resource_inr (b : Backend) (db db' : Store)
      (r : WebResource.t) (draw : Z) :
  add_web_resource b db r draw = inr db'
  <-> db' = Build_Store (scan_sessions db)
                        (web_resources db ++ [kept_resource b r draw])
                        (download_history db)
      /\ (enum_check b = true ->
          WebResource.storable (WebResource.resource_type r) = true)
      /\ (varchar_limit b = true ->
          over_length WebResource.columns
                      (given WebResource.id WebResource.set_id
                             (WebResource.bound r) draw) = None)
      /\ out_of_range WebResource.columns b (kept_resource b r draw) = None
      /\ (forall i, WebResource.id (kept_resource b r draw) = Some i ->
                    ~ In i (ids_of WebResource.id (web_resources db)))
      /\ (foreign_keys b = true ->
          In (WebResource.scan_session_id (kept_resource b r draw))
             (ids_of ScanSession.id (scan_sessions db))).
Proof.
  unfold add_web_resource, kept_resource, given. cbv zeta. split.
  - destruct (enum_check b && _) eqn:C; [discriminate|].
    destruct (insert_row _ _ _ _ _ _ _ (WebResource.bound r) draw)
      as [|rows'] eqn:E; [discriminate|].
    intros H. inversion H; subst db'. clear H.
    apply insert_row_inr_iff in E.
    destruct E as (s1 & s' & -> & -> & -> & L & R & K & D).
    repeat split; trivial.
    + intros Hc. rewrite Hc in C. cbn [andb] in C.
      now apply negb_false_iff in C.
    + intros i Hi Hin. rewrite WebResource_key_conflict, Hi in K.
      apply existsb_id in Hin. congruence.
    + intros F. specialize (D F). rewrite WebResource_dangling in D.
      now apply negb_false_iff, existsb_Z_In in D.
  - intros (-> & C & L & R & K & D).
    assert (C' : enum_check b
                 && negb (WebResource.storable (WebResource.resource_type r))
                 = false).
    { destruct (enum_check b); [|reflexivity]. now rewrite (C eq_refl). }
    rewrite C'.
    match goal with
    | |- match ?X with _ => _ end = inr (Build_Store _ ?rows _) =>
        assert (E : X = inr rows)
    end.
    { apply insert_row_inr_iff. eexists _, _. repeat split; trivial.
      - rewrite WebResource_key_conflict.
        match goal with
        | |- match WebResource.id ?x with _ => _ end = _ =>
            destruct (WebResource.id x) as [i|] eqn:Hi; [|reflexivity]
        end.
        apply existsb_id_false. now apply K.
      - intros F. rewrite WebResource_dangling.
        apply negb_false_iff, existsb_Z_In. now apply D. }
    now rewrite E.
Qed.

Lemma add_download_history_inr (b : Backend) (db db' : Store)
      (h : DownloadHistory.t) (draw : Z) :
  add_download_history b db h draw = inr db'
  <-> db' = Build_Store (scan_sessions db) (web_resources db)
                        (download_history db ++ [kept_download b h draw])
      /\ (varchar_limit b = true ->
          over_length DownloadHistory.columns
                      (given DownloadHistory.id DownloadHistory.set_id h draw)
          = None)
      /\ out_of_range DownloadHistory.columns b (kept_download b h draw) = None
      /\ (forall i, DownloadHistory.id (kept_download b h draw) = Some i ->
                    ~ In i (ids_of DownloadHistory.id (download_history db)))
      /\ (foreign_keys b = true ->
          In (DownloadHistory.resource_id (kept_download b h draw))
             (ids_of WebResource.id (web_resources db))).
Proof.
  unfold add_download_history, kept_download, given. cbv zeta. split.
  - destruct (insert_row _ _ _ _ _ _ _ h draw) as [|rows'] eqn:E;
      [discriminate|].
    intros H. inversion H; subst db'. clear H.
    apply insert_row_inr_iff in E.
    destruct E as (s1 & s' & -> & -> & -> & L & R & K & D).
    repeat split; trivial.
    + intros i Hi Hin. rewrite DownloadHistory_key_conflict, Hi in K.
      apply existsb_id in Hin. congruence.
    + intros F. specialize (D F). rewrite DownloadHistory_dangling in D.
      now apply negb_false_iff, existsb_Z_In in D.
  - intros (-> & L & R & K & D).
    match goal with
    | |- match ?X with _ => _ end = inr (Build_Store _ _ ?rows) =>
        assert (E : X = inr rows)
    end.
    { apply insert_row_inr_iff. eexists _, _. repeat split; trivial.
      - rewrite DownloadHistory_key_conflict.
        match goal with
        | |- match DownloadHistory.id ?x with _ => _ end = _ =>
            destruct (DownloadHistory.id x) as [i|] eqn:Hi; [|reflexivity]
        end.
        apply existsb_id_false. now apply K.
      - intros F. rewrite DownloadHistory_dangling.
        apply negb_false_iff, existsb_Z_In. now apply D. }
    now rewrite E.
Qed.

(** The id of the row that is stored. *)
Lemma kept_session_id (b : Backend) (s : ScanSession.t) (draw : Z) :
  ScanSession.id (kept_session b s draw)
  = Some match ScanSession.id s with Some i => i | None => draw end.
Proof.
  unfold kept_session, given. cbv zeta.
  destruct (ScanSession.id s) eqn:E, (varchar_limit b); cbn; now rewrite ?E.
Qed.

Lemma kept_resource_id (b : Backend) (r : WebResource.t) (draw : Z) :
  WebResource.id (kept_resource b r draw)
  = Some match WebResource.id r with Some i => i | None => draw end.
Proof.
  unfold kept_resource, given. cbv zeta.
  cbn [WebResource.id WebResource.bound].
  destruct (WebResource.id r) eqn:E, (varchar_limit b); cbn; now rewrite ?E.
Qed.

Lemma kept_download_id (b : Backend) (h : DownloadHistory.t) (draw : Z) :
  DownloadHistory.id (kept_download b h draw)
  = Some match DownloadHistory.id h with Some i => i | None => draw end.
Proof.
  unfold kept_download, given. cbv zeta.
  destruct (DownloadHistory.id h) eqn:E, (varchar_limit b); cbn;
    now rewrite ?E.
Qed.


(** What the column type makes of a resource type. *)
Lemma ResourceType_bind_storable (v : unvalidated ResourceType) :
  WebResource.storable v = true <-> exists m, ResourceType_bind v = Member m.
Proof.
  destruct v as [m|s]; cbn [WebResource.storable ResourceType_bind].
  - split; eauto.
  - destruct (find _ ResourceType_members) as [m|] eqn:F.
    + split; [eauto|]. intros _. apply existsb_exists. exists m.
      apply find_some in F. exact F.
    + split; [|intros [m H]; discriminate H].
      intros H. apply existsb_exists in H. destruct H as (m & Hm & H).
      pose proof (find_none _ _ F _ Hm) as N. cbn in N. congruence.
Qed.

Lemma ResourceType_bind_raw (v : unvalidated ResourceType) :
  WebResource.storable v = false -> ResourceType_bind v = v.
Proof.
  destruct v as [m|s]; cbn [WebResource.storable ResourceType_bind];
    [reflexivity|].
  destruct (find _ ResourceType_members) as [m|] eqn:F; [|reflexivity].
  intros H. apply find_some in F. destruct F as [Hm F].
  assert (E : existsb (fun m => String.eqb (ResourceType_value m) s
                                || String.eqb (ResourceType_name m) s)
                      ResourceType_members = true).
  { apply existsb_exists. now exists m. }
  congruence.
Qed.

Lemma ResourceType_bind_member (m : ResourceType) :
  ResourceType_bind (Member m) = Member m.
Proof. reflexivity. Qed.

Lemma ResourceType_bind_twice (v : unvalidated ResourceType) :
  ResourceType_bind (ResourceType_bind v) = ResourceType_bind v.
Proof.
  destruct (WebResource.storable v) eqn:S.
  - apply ResourceType_bind_storable in S. destruct S as [m ->]. reflexivity.
  - now rewrite !(ResourceType_bind_raw _ S).
Qed.

Lemma kept_resource_type (b : Backend) (r : WebResource.t) (draw : Z) :
  WebResource.resource_type (kept_resource b r draw)
  = ResourceType_bind (WebResource.resource_type r).
Proof.
  unfold kept_resource, given. cbv zeta.
  cbn [WebResource.id WebResource.bound].
  destruct (WebResource.id r), (varchar_limit b); reflexivity.
Qed.

Lemma kept_download_resource (b : Backend) (h : DownloadHistory.t) (draw : Z) :
  DownloadHistory.resource_id (kept_download b h draw)
  = DownloadHistory.resource_id h.
Proof.
  unfold kept_download, given. cbv zeta.
  destruct (DownloadHistory.id h), (varchar_limit b); reflexivity.
Qed.

(** ** The resource type of a stored resource *)

Lemma ResourceType_bind_inv (v : unvalidated ResourceType) (m : ResourceType) :
  ResourceType_bind v = Member m ->
  v = Member m \/ v = Raw (ResourceType_value m)
  \/ v = Raw (ResourceType_name m).
Proof.
  destruct v as [m'|s]; cbn [ResourceType_bind].
  - intros [= ->]. now left.
  - destruct (find _ ResourceType_members) as [m'|] eqn:F; [|discriminate].
    intros [= ->]. apply find_some in F. destruct F as [_ F].
    apply orb_true_iff in F. right.
    destruct F as [F|F]; apply String.eqb_eq in F; subst s; auto.
Qed.

(** C6, as the code has it: [ResourceType] is a closed enumeration with
    exactly the ten members json, js, xml, yml, css, image, html, txt, pdf and
    other, with pairwise distinct values; a member is recovered from its
    value, and a string is either the value of the member it denotes or
    denotes none.  Where a resource type is validated, as in
    [ResourceResponse], a string is accepted only as the value of a member,
    and any other string is rejected.  A [WebResource] constructed with a
    member holds that member, and on a backend that checks the column the
    resource type of a row that is stored is a member: the one the resource
    was given, or the one whose value or name it was given as a string. *)
Theorem ResourceType_closed :
  map ResourceType_value ResourceType_members
  = ["json"; "js"; "xml"; "yml"; "css"; "image"; "html"; "txt"; "pdf"; "other"]
  /\ List.length ResourceType_members = 10%nat
  /\ NoDup (map ResourceType_value ResourceType_members)
  /\ (forall r, ResourceType_of_value (ResourceType_value r) = Some r)
  /\ (forall s,
         ResourceType_of_value s = None
         \/ exists r, ResourceType_of_value s = Some r
                      /\ ResourceType_value r = s
                      /\ In s (map ResourceType_value ResourceType_members))
  /\ (forall e i u p s ext ct sz lm dl at_ el resp,
         ResourceResponse.new e i u p (Raw s) ext ct sz lm dl at_ el = inr resp ->
         ResourceType_value (ResourceResponse.resource_type resp) = s)
  /\ (forall e i u p s ext ct sz lm dl at_ el,
         ResourceType_of_value s = None ->
         ResourceResponse.new e i u p (Raw s) ext ct sz lm dl at_ el
         = inl [("resource_type", not_a_member)])
  /\ (forall now sid u p ty ext k,
         WebResource.resource_type (WebResource.new now sid u p ty ext k)
         = Member ty)
  /\ (forall b db r draw db',
         enum_check b = true ->
         add_web_resource b db r draw = inr db' ->
         exists m r',
           web_resources db' = (web_resources db ++ [r'])%list
           /\ WebResource.resource_type r' = Member m
           /\ (WebResource.resource_type r = Member m
               \/ WebResource.resource_type r = Raw (ResourceType_value m)
               \/ WebResource.resource_type r = Raw (ResourceType_name m))).
Proof.
  split; [reflexivity|]. split; [reflexivity|]. split.
  { cbn. repeat (constructor; [cbn; intuition discriminate|]). constructor. }
  split; [exact ResourceType_of_value_value|]. split.
  { intros s. destruct (ResourceType_of_value s) as [r|] eqn:E.
    - right. exists r. pose proof (ResourceType_of_value_sound _ E) as V.
      repeat split; trivial. rewrite <- V. apply in_map.
      destruct r; cbn; tauto.
    - now left. }
  split.
  { intros e i u p s ext ct sz lm dl at_ el resp.
    unfold ResourceResponse.new. cbn [ResourceType_validate].
    destruct (ResourceType_of_value s) as [m|] eqn:E; [|discriminate].
    intros H. apply model_validate_inr in H. destruct H as [-> _]. cbn.
    now apply ResourceType_of_value_sound. }
  split.
  { intros e i u p s ext ct sz lm dl at_ el E.
    unfold ResourceResponse.new. cbn [ResourceType_validate]. now rewrite E. }
  split; [reflexivity|].
  intros b db r draw db' C H. apply add_web_resource_inr in H.
  destruct H as (-> & S & _). specialize (S C).
  apply ResourceType_bind_storable in S. destruct S as [m Hm].
  exists m, (kept_resource b r draw). split; [reflexivity|].
  split; [now rewrite kept_resource_type|].
  now apply ResourceType_bind_inv.
Qed.

Lemma ResourceType_closed_witness :
  ResourceType_value IMAGE = "image"
  /\ exists m r',
      web_resources (exec_all strict store_with_one_resource
                              [AddWebResource (example_resource 1) 2])
      = (web_resources store_with_one_resource ++ [r'])%list
      /\ WebResource.resource_type r' = Member m
      /\ (WebResource.resource_type (example_resource 1) = Member m
          \/ WebResource.resource_type (example_resource 1)
             = Raw (ResourceType_value m)
          \/ WebResource.resource_type (example_resource 1)
             = Raw (ResourceType_name m)).
Proof.
  split.
  - apply (proj1 (proj2 (proj2 (proj2 (proj2 (proj2 ResourceType_closed)))))
             Re.PythonRe 7 "https://example.com/a.png" "/a.png" "image" "png"
             None None None true "2026-01-01T00:00:00" None
             (ResourceResponse.mk 7 "https://example.com/a.png" "/a.png" IMAGE
                "png" None None None true "2026-01-01T00:00:00" None)).
    reflexivity.
  - apply (proj2 (proj2 (proj2 (proj2 (proj2 (proj2 (proj2 (proj2
             ResourceType_closed)))))))
             strict store_with_one_resource (example_resource 1) 2
             (exec_all strict store_with_one_resource
                       [AddWebResource (example_resource 1) 2])
             eq_refl).
    reflexivity.
Defined.

(** C6 as stated fails: with pydantic 2 the table model is not validated when
    it is constructed, so a [WebResource] is constructed with the resource
    type ["exe"], which is the value of no member, and a backend that does not
    check the column stores it. *)
Lemma unvalidated_resource_type_stored :
  ResourceType_of_value "exe" = None
  /\ WebResource.resource_type exe_resource = Raw "exe"
  /\ exists db',
      add_web_resource lenient store_with_one_resource exe_resource 2 = inr db'
      /\ map WebResource.resource_type (web_resources db')
         = [Member IMAGE; Raw "exe"].
Proof.
  split; [reflexivity|]. split; [reflexivity|].
  eexists. split; vm_compute; reflexivity.
Qed.

(** ** Uniqueness of resources *)

Lemma kept_resource_set_id (b : Backend) (r : WebResource.t) (j d draw : Z) :
  kept_resource b (WebResource.set_id j r) d
  = WebResource.set_id j (kept_resource b r draw).
Proof.
  unfold kept_resource, given. cbv zeta.
  cbn [WebResource.id WebResource.bound WebResource.set_id].
  destruct (WebResource.id r), (varchar_limit b); reflexivity.
Qed.

Lemma kept_resource_drawn (b : Backend) (r : WebResource.t) (j draw : Z) :
  WebResource.id r = None ->
  kept_resource b r j = WebResource.set_id j (kept_resource b r draw).
Proof.
  intros E. unfold kept_resource, given. cbv zeta.
  cbn [WebResource.id WebResource.bound]. rewrite E.
  destruct (varchar_limit b); reflexivity.
Qed.

Lemma WebResource_over_length_given (r : WebResource.t) (draw : Z) :
  over_length WebResource.columns
              (given WebResource.id WebResource.set_id (WebResource.bound r)
                     draw)
  = over_length WebResource.columns r.
Proof.
  unfold given. cbn [WebResource.id WebResource.bound].
  destruct (WebResource.id r), (WebResource.resource_type r); reflexivity.
Qed.

Lemma WebResource_out_of_range_set_id (b : Backend) (r : WebResource.t)
      (j : Z) :
  in_range b j = true ->
  out_of_range WebResource.columns b r = None ->
  out_of_range WebResource.columns b (WebResource.set_id j r) = None.
Proof.
  intros Hj. rewrite !WebResource_out_of_range.
  cbn [WebResource.id WebResource.set_id WebResource.scan_session_id
       WebResource.file_size_bytes WebResource.download_attempts
       in_range_opt].
  rewrite Hj, !andb_true_iff. tauto.
Qed.

Lemma refused (A : Type) (x : DBError + A) :
  (forall a, x = inr a -> False) -> exists err, x = inl err.
Proof. destruct x as [e|a]; [eauto|]. intros H. destruct (H a eq_refl). Qed.

(** C1, as the code has it: the [web_resources] table is unique in its
    primary key [id] and in nothing else.  When a resource has been stored, a
    second one with the same session id, url and other fields and an id that
    is not in use and in the range of the column is stored too, whether that
    id is given or drawn, so that two rows with its session id and url exist;
    a resource with the id of the stored one is refused, and so is one without
    an id when the id that is drawn is in use. *)
Theorem WebResource_unique_by_id_only
        (b : Backend) (db db1 : Store) (r : WebResource.t) (draw j : Z) :
  add_web_resource b db r draw = inr db1 ->
  ~ In j (ids_of WebResource.id (web_resources db1)) ->
  in_range b j = true ->
  let r1 := kept_resource b r draw in
  let db2 := Build_Store (scan_sessions db1)
                         (web_resources db1 ++ [WebResource.set_id j r1])
                         (download_history db1) in
  web_resources db1 = (web_resources db ++ [r1])%list
  /\ (forall d, add_web_resource b db1 (WebResource.set_id j r) d = inr db2)
  /\ (WebResource.id r = None -> add_web_resource b db1 r j = inr db2)
  /\ (2 <= resources_with db2 (WebResource.scan_session_id r1)
                          (WebResource.url r1))%nat
  /\ (forall d i,
         WebResource.id r1 = Some i ->
         exists err,
           add_web_resource b db1 (WebResource.set_id i r) d = inl err)
  /\ (WebResource.id r = None ->
      forall d,
        In d (ids_of WebResource.id (web_resources db1)) ->
        exists err, add_web_resource b db1 r d = inl err).
Proof.
  intros H Hj Rj. cbv zeta.
  apply add_web_resource_inr in H. destruct H as (-> & C & L & R & K & D).
  cbn [web_resources scan_sessions download_history] in *.
  assert (S2 : forall r2 d,
             kept_resource b r2 d
             = WebResource.set_id j (kept_resource b r draw) ->
             over_length WebResource.columns
                         (given WebResource.id WebResource.set_id
                                (WebResource.bound r2) d)
             = over_length WebResource.columns r ->
             WebResource.resource_type r2 = WebResource.resource_type r ->
             add_web_resource b
               (Build_Store (scan_sessions db)
                            (web_resources db ++ [kept_resource b r draw])
                            (download_history db)) r2 d
             = inr (Build_Store
                      (scan_sessions db)
                      ((web_resources db ++ [kept_resource b r draw])
                         ++ [WebResource.set_id j (kept_resource b r draw)])
                      (download_history db))).
  { intros r2 d E O Ty. apply add_web_resource_inr.
    cbn [web_resources scan_sessions download_history].
    rewrite E, O, Ty. split; [reflexivity|]. split; [exact C|].
    split; [now rewrite <- (WebResource_over_length_given r draw)|].
    split; [now apply WebResource_out_of_range_set_id|].
    split.
    { intros i Hi. cbn [WebResource.id WebResource.set_id] in Hi.
      injection Hi as <-. exact Hj. }
    intros F. exact (D F). }
  split; [reflexivity|]. split.
  { intros d. apply S2; [apply kept_resource_set_id| |reflexivity].
    unfold given. cbn. reflexivity. }
  split.
  { intros E. apply S2; [now apply kept_resource_drawn| |reflexivity].
    apply WebResource_over_length_given. }
  split.
  { unfold resources_with. cbn [web_resources].
    rewrite !filter_app, !length_app. cbn [filter].
    cbn [WebResource.scan_session_id WebResource.url WebResource.set_id].
    rewrite Z.eqb_refl, String.eqb_refl. cbn. lia. }
  split.
  { intros d i Hi. apply refused. intros db2 H2.
    apply add_web_resource_inr in H2. destruct H2 as (_ & _ & _ & _ & K2 & _).
    apply (K2 i); [now rewrite kept_resource_id|].
    cbn [web_resources]. rewrite ids_of_app. apply in_or_app. right.
    cbn [ids_of]. rewrite Hi. now left. }
  intros E d Hd. apply refused. intros db2 H2.
  apply add_web_resource_inr in H2. destruct H2 as (_ & _ & _ & _ & K2 & _).
  apply (K2 d); [now rewrite kept_resource_id, E|exact Hd].
Qed.

Lemma WebResource_unique_by_id_only_witness :
  let r1 := kept_resource strict (example_resource 1) 1 in
  let db2 := Build_Store (scan_sessions store_with_one_resource)
                         (web_resources store_with_one_resource
                            ++ [WebResource.set_id 2 r1])
                         (download_history store_with_one_resource) in
  web_resources store_with_one_resource
  = (web_resources store_with_session ++ [r1])%list
  /\ (forall d,
         add_web_resource strict store_with_one_resource
                          (WebResource.set_id 2 (example_resource 1)) d
         = inr db2)
  /\ (WebResource.id (example_resource 1) = None ->
      add_web_resource strict store_with_one_resource (example_resource 1) 2
      = inr db2)
  /\ (2 <= resources_with db2 (WebResource.scan_session_id r1)
                          (WebResource.url r1))%nat
  /\ (forall d i,
         WebResource.id r1 = Some i ->
         exists err,
           add_web_resource strict store_with_one_resource
                            (WebResource.set_id i (example_resource 1)) d
           = inl err)
  /\ (WebResource.id (example_resource 1) = None ->
      forall d,
        In d (ids_of WebResource.id (web_resources store_with_one_resource)) ->
        exists err,
          add_web_resource strict store_with_one_resource
                           (example_resource 1) d = inl err).
Proof.
  apply (@WebResource_unique_by_id_only strict store_with_session
           store_with_one_resource (example_resource 1) 1 2).
  - reflexivity.
  - vm_compute. intros [H|[]]. discriminate H.
  - reflexivity.
Defined.

(** C1 as stated fails: on a backend that enforces every declared constraint,
    the same resource (same session id, same url) is inserted twice and both
    insertions succeed; the store then holds two rows with that pair.  The ids
    drawn, 1 and 2, are those that a fresh sequence hands out and also those
    one above the largest id stored. *)
Lemma WebResource_duplicate_pair_stored :
  exists db1 db2,
    add_web_resource strict store_with_one_resource (example_resource 1) 2
    = inr db2
    /\ exec strict empty_store (AddScanSession example_session 1) = inr db1
    /\ add_web_resource strict db1 (example_resource 1) 1
       = inr store_with_one_resource
    /\ resources_with db2 1 "https://example.com/a.png" = 2%nat
    /\ map WebResource.id (web_resources db2) = [Some 1; Some 2]
    /\ sequence_after 0 = 1 /\ sequence_after 1 = 2
    /\ rowid_after (ids_of WebResource.id (web_resources db1)) = 1
    /\ rowid_after (ids_of WebResource.id
                           (web_resources store_with_one_resource)) = 2.
Proof.
  do 2 eexists. repeat split; vm_compute; reflexivity.
Qed.

(** ** Deleting a session *)

Lemma resources_of_nil (db : Store) (sid : Z) (r : WebResource.t) :
  resources_of db sid = [] ->
  In r (web_resources db) ->
  WebResource.scan_session_id r <> sid.
Proof.
  unfold resources_of. intros E Hr Hs.
  assert (H : In r (filter (fun r => WebResource.scan_session_id r =? sid)
                           (web_resources db))).
  { apply filter_In. split; [exact Hr|]. now apply Z.eqb_eq. }
  rewrite E in H. exact H.
Qed.

(** [session.delete] without [cascade_delete]: it goes through only when no
    resource refers to the session, and then removes the session alone. *)
Lemma delete_scan_session_inr (b : Backend) (db db' : Store) (sid : Z) :
  delete_scan_session b db sid = inr db' ->
  resources_of db sid = [] /\ db' = drop_scan_session db sid.
Proof.
  unfold delete_scan_session. cbn [cascade_delete ScanSession.resources].
  destruct (resources_of db sid); [|discriminate].
  intros H. inversion H. auto.
Qed.

Lemma delete_scan_session_statement_inr (b : Backend) (db db' : Store)
      (sid : Z) :
  delete_scan_session_statement b db sid = inr db' ->
  db' = drop_scan_session db sid
  /\ (foreign_keys b = true -> resources_of db sid = []).
Proof.
  unfold delete_scan_session_statement.
  destruct (foreign_keys b); cbn [andb].
  - destruct (resources_of db sid); cbn; [|discriminate].
    intros H. inversion H. auto.
  - intros H. inversion H. split; [reflexivity|discriminate].
Qed.

Section Reachable.

Variable b : Backend.
Hypothesis enforced : foreign_keys b = true.

Lemma drop_scan_session_consistent (db : Store) (sid : Z) :
  consistent db -> resources_of db sid = [] ->
  consistent (drop_scan_session db sid).
Proof.
  intros [ND FK] E. unfold consistent, drop_scan_session.
  cbn [scan_sessions web_resources]. rewrite ids_of_filter_out. split.
  - now apply NoDup_filter.
  - intros r Hr. apply filter_In. split; [now apply FK|].
    apply negb_true_iff. apply Z.eqb_neq.
    now apply resources_of_nil with db.
Qed.

Lemma exec_consistent (db db' : Store) (o : op) :
  consistent db -> exec b db o = inr db' -> consistent db'.
Proof.
  intros [ND FK]. destruct o as [s d|r d|h d|sid|sid]; cbn [exec].
  - intros H. apply add_scan_session_inr in H. destruct H as (-> & _ & _ & K).
    unfold consistent. cbn [scan_sessions web_resources].
    rewrite ids_of_app. cbn [ids_of]. rewrite kept_session_id. split.
    + apply NoDup_snoc; [exact ND|]. apply K. apply kept_session_id.
    + intros r Hr. apply in_or_app. left. now apply FK.
  - intros H. apply add_web_resource_inr in H.
    destruct H as (-> & _ & _ & _ & _ & D).
    unfold consistent. cbn [scan_sessions web_resources]. split; [exact ND|].
    intros x Hx. apply in_app_or in Hx. destruct Hx as [Hx|[<-|[]]].
    + now apply FK.
    + exact (D enforced).
  - intros H. apply add_download_history_inr in H. destruct H as (-> & _).
    now split.
  - intros H. apply delete_scan_session_inr in H. destruct H as [E ->].
    now apply drop_scan_session_consistent.
  - intros H. apply delete_scan_session_statement_inr in H.
    destruct H as [-> E]. apply drop_scan_session_consistent; [now split|].
    now apply E.
Qed.

Lemma exec_all_consistent (os : list op) :
  forall db, consistent db -> consistent (exec_all b db os).
Proof.
  induction os as [|o os IH]; intros db C; cbn; [exact C|].
  destruct (exec b db o) as [|db'] eqn:E; [now apply IH|].
  apply IH. now apply exec_consistent with db o.
Qed.

Lemma reachable_one_session (os : list op) (r : WebResource.t) :
  In r (web_resources (exec_all b empty_store os)) ->
  sessions_with_id (exec_all b empty_store os) (WebResource.scan_session_id r)
  = 1%nat.
Proof.
  intros Hr.
  destruct (exec_all_consistent os (db := empty_store)) as [ND FK].
  { split; [constructor|]. intros x []. }
  unfold sessions_with_id. apply has_id_count; [exact ND|now apply FK].
Qed.

End Reachable.

Lemma drop_scan_session_gone (db : Store) (sid : Z) :
  sessions_with_id (drop_scan_session db sid) sid = 0%nat.
Proof.
  unfold sessions_with_id, drop_scan_session. cbn [scan_sessions].
  induction (scan_sessions db) as [|s rows IH]; cbn; [reflexivity|].
  destruct (has_id ScanSession.id sid s) eqn:E; cbn; [exact IH|].
  now rewrite E.
Qed.

Lemma drop_scan_session_others (db : Store) (sid : Z) (s : ScanSession.t) :
  In s (scan_sessions (drop_scan_session db sid))
  <-> In s (scan_sessions db) /\ ScanSession.id s <> Some sid.
Proof.
  unfold drop_scan_session. cbn [scan_sessions]. rewrite filter_In.
  unfold has_id. destruct (ScanSession.id s) as [i|].
  - rewrite negb_true_iff, Z.eqb_neq. intuition congruence.
  - cbn. intuition congruence.
Qed.

(** C4, as the code has it: every stored resource refers to exactly one stored
    session, and no delete cascade is declared.  [session.delete] of a session
    that no resource refers to goes through and removes that session alone:
    the other sessions, all resources and the download history stay as they
    are.  [session.delete] of a session that a resource refers to is refused,
    so nothing changes.  A [DELETE] statement leaves the [web_resources] table
    as it is too.  On a backend that checks foreign keys, in every store
    reached from the empty one, the session id of each resource is the id of
    exactly one stored session. *)
Theorem ScanSession_delete_no_cascade (b : Backend) (db : Store) (sid : Z) :
  cascade_delete ScanSession.resources = false
  /\ (resources_of db sid = [] ->
      delete_scan_session b db sid = inr (drop_scan_session db sid))
  /\ (web_resources (drop_scan_session db sid) = web_resources db
      /\ download_history (drop_scan_session db sid) = download_history db
      /\ sessions_with_id (drop_scan_session db sid) sid = 0%nat
      /\ forall s, In s (scan_sessions (drop_scan_session db sid))
                   <-> In s (scan_sessions db) /\ ScanSession.id s <> Some sid)
  /\ (resources_of db sid <> [] ->
      delete_scan_session b db sid
      = inl (IntegrityError "NOT NULL web_resources.scan_session_id"))
  /\ (forall db',
         delete_scan_session b db sid = inr db' ->
         resources_of db sid = [] /\ db' = drop_scan_session db sid)
  /\ (forall db',
         delete_scan_session_statement b db sid = inr db' ->
         web_resources db' = web_resources db)
  /\ (foreign_keys b = true ->
      forall os r,
        In r (web_resources (exec_all b empty_store os)) ->
        sessions_with_id (exec_all b empty_store os)
                         (WebResource.scan_session_id r) = 1%nat).
Proof.
  split; [reflexivity|]. split.
  { intros E. unfold delete_scan_session.
    cbn [cascade_delete ScanSession.resources]. now rewrite E. }
  split.
  { split; [reflexivity|]. split; [reflexivity|].
    split; [apply drop_scan_session_gone|].
    intros s. apply drop_scan_session_others. }
  split.
  { intros N. unfold delete_scan_session.
    cbn [cascade_delete ScanSession.resources].
    destruct (resources_of db sid); [congruence|reflexivity]. }
  split; [intros db'; apply delete_scan_session_inr|]. split.
  { intros db' H. apply delete_scan_session_statement_inr in H.
    destruct H as [-> _]. reflexivity. }
  intros F os r. now apply reachable_one_session.
Qed.

Lemma ScanSession_delete_no_cascade_witness :
  delete_scan_session strict store_with_session 1
  = inr (drop_scan_session store_with_session 1)
  /\ delete_scan_session strict store_with_two_sessions 1
     = inl (IntegrityError "NOT NULL web_resources.scan_session_id")
  /\ sessions_with_id store_with_two_sessions 2 = 1%nat.
Proof.
  split.
  - apply (proj1 (proj2 (ScanSession_delete_no_cascade
                           strict store_with_session 1))).
    reflexivity.
  - split.
    + apply (proj1 (proj2 (proj2 (proj2 (ScanSession_delete_no_cascade
                                           strict store_with_two_sessions 1))))).
      discriminate.
    + apply (proj2 (proj2 (proj2 (proj2 (proj2 (proj2
               (ScanSession_delete_no_cascade strict empty_store 0))))))
               eq_refl two_sessions_script
               (WebResource.set_id 2 (example_resource 2))).
      vm_compute. auto.
Defined.

(** C4 as stated fails: with one resource in each of two sessions, deleting
    the first session through [session.delete] is refused on every backend and
    the store stays as it is; a [DELETE] statement is refused where foreign
    keys are checked and, where they are not, removes the session and leaves
    its resource behind.  In no case is a resource deleted. *)
Lemma ScanSession_delete_leaves_resources :
  map WebResource.scan_session_id (web_resources store_with_two_sessions)
  = [1; 2]
  /\ delete_scan_session strict store_with_two_sessions 1
     = inl (IntegrityError "NOT NULL web_resources.scan_session_id")
  /\ delete_scan_session lenient store_with_two_sessions 1
     = inl (IntegrityError "NOT NULL web_resources.scan_session_id")
  /\ delete_scan_session_statement strict store_with_two_sessions 1
     = inl (IntegrityError "foreign key")
  /\ exists db',
      delete_scan_session_statement lenient store_with_two_sessions 1 = inr db'
      /\ sessions_with_id db' 1 = 0%nat
      /\ map WebResource.scan_session_id (resources_of db' 1) = [1].
Proof.
  repeat split; try (vm_compute; reflexivity).
  eexists. repeat split; vm_compute; reflexivity.
Qed.

(** ** Error messages *)

Lemma all_spaces_take (n : nat) (m : string) :
  all_spaces (drop n m) = true ->
  exists k, m = take n m ++ replicate k " ".
Proof.
  intros H. exists (String.length (drop n m)).
  rewrite <- (take_drop n m) at 1. f_equal.
  induction (drop n m) as [|c s IH]; [reflexivity|].
  cbn in H. apply andb_true_iff in H. destruct H as [Hc Hs].
  apply Ascii.eqb_eq in Hc. subst c. cbn. now rewrite <- IH.
Qed.

Lemma kept_session_message (b : Backend) (s : ScanSession.t) (draw : Z) :
  ScanSession.error_message (kept_session b s draw)
  = if varchar_limit b
    then option_map (take 1000) (ScanSession.error_message s)
    else ScanSession.error_message s.
Proof.
  unfold kept_session, given. cbv zeta.
  destruct (ScanSession.id s), (varchar_limit b); reflexivity.
Qed.

Lemma kept_download_message (b : Backend) (h : DownloadHistory.t) (draw : Z) :
  DownloadHistory.error_message (kept_download b h draw)
  = if varchar_limit b
    then option_map (take 500) (DownloadHistory.error_message h)
    else DownloadHistory.error_message h.
Proof.
  unfold kept_download, given. cbv zeta.
  destruct (DownloadHistory.id h), (varchar_limit b); reflexivity.
Qed.

Lemma ScanSession_message_takes (s : ScanSession.t) (draw : Z) (m : string) :
  over_length ScanSession.columns
              (given ScanSession.id ScanSession.set_id s draw) = None ->
  ScanSession.error_message s = Some m ->
  all_spaces (drop 1000 m) = true.
Proof.
  intros L Hm.
  assert (E : too_long 1000 m = false).
  { apply (@over_length_None _ ScanSession.columns _
             (Col "error_message" [max_length 1000]
                  (fun r => opt VStr (ScanSession.error_message r)))
             1000 m L).
    - cbn. tauto.
    - reflexivity.
    - unfold given. destruct (ScanSession.id s); cbn [get]; cbn;
        now rewrite Hm. }
  unfold too_long in E. now apply negb_false_iff in E.
Qed.

Lemma DownloadHistory_message_takes (h : DownloadHistory.t) (draw : Z)
      (m : string) :
  over_length DownloadHistory.columns
              (given DownloadHistory.id DownloadHistory.set_id h draw) = None ->
  DownloadHistory.error_message h = Some m ->
  all_spaces (drop 500 m) = true.
Proof.
  intros L Hm.
  assert (E : too_long 500 m = false).
  { apply (@over_length_None _ DownloadHistory.columns _
             (Col "error_message" [max_length 500]
                  (fun r => opt VStr (DownloadHistory.error_message r)))
             500 m L).
    - cbn. tauto.
    - reflexivity.
    - unfold given. destruct (DownloadHistory.id h); cbn [get]; cbn;
        now rewrite Hm. }
  unfold too_long in E. now apply negb_false_iff in E.
Qed.

(** C5, as the code has it: what the store does with an error message depends
    on the backend only; nothing in the models shortens it.  A backend that
    does not enforce column sizes stores the message of the inserted row as it
    is, whatever its length.  A backend that enforces them stores the first
    1000 characters of a session's message, and the first 500 of a download
    entry's, and only when whatever follows them is spaces: a message within
    the bound is stored as it is, and a longer message with anything but
    spaces beyond the bound is refused with the row. *)
Theorem error_message_stored_as_given (b : Backend) (db : Store) :
  (forall s draw db',
      add_scan_session b db s draw = inr db' ->
      exists s',
        scan_sessions db' = (scan_sessions db ++ [s'])%list
        /\ (varchar_limit b = false ->
            ScanSession.error_message s' = ScanSession.error_message s)
        /\ (varchar_limit b = true ->
            forall m,
              ScanSession.error_message s = Some m ->
              ScanSession.error_message s' = Some (take 1000 m)
              /\ (String.length (take 1000 m) <= 1000)%nat
              /\ (exists k, m = take 1000 m ++ replicate k " ")
              /\ ((String.length m <= 1000)%nat -> take 1000 m = m)))
  /\ (forall h draw db',
         add_download_history b db h draw = inr db' ->
         exists h',
           download_history db' = (download_history db ++ [h'])%list
           /\ (varchar_limit b = false ->
               DownloadHistory.error_message h'
               = DownloadHistory.error_message h)
           /\ (varchar_limit b = true ->
               forall m,
                 DownloadHistory.error_message h = Some m ->
                 DownloadHistory.error_message h' = Some (take 500 m)
                 /\ (String.length (take 500 m) <= 500)%nat
                 /\ (exists k, m = take 500 m ++ replicate k " ")
                 /\ ((String.length m <= 500)%nat -> take 500 m = m)))
  /\ (varchar_limit b = true ->
      forall s draw m,
        ScanSession.error_message s = Some m ->
        all_spaces (drop 1000 m) = false ->
        exists err, add_scan_session b db s draw = inl err)
  /\ (varchar_limit b = true ->
      forall h draw m,
        DownloadHistory.error_message h = Some m ->
        all_spaces (drop 500 m) = false ->
        exists err, add_download_history b db h draw = inl err).
Proof.
  split.
  { intros s draw db' H. apply add_scan_session_inr in H.
    destruct H as (-> & L & _). exists (kept_session b s draw).
    split; [reflexivity|]. rewrite kept_session_message. split.
    - now intros ->.
    - intros V m Hm. rewrite V, Hm. split; [reflexivity|].
      split; [apply take_length|]. split; [|apply take_all].
      apply all_spaces_take.
      exact (ScanSession_message_takes _ _ (L V) Hm). }
  split.
  { intros h draw db' H. apply add_download_history_inr in H.
    destruct H as (-> & L & _). exists (kept_download b h draw).
    split; [reflexivity|]. rewrite kept_download_message. split.
    - now intros ->.
    - intros V m Hm. rewrite V, Hm. split; [reflexivity|].
      split; [apply take_length|]. split; [|apply take_all].
      apply all_spaces_take.
      exact (DownloadHistory_message_takes _ _ (L V) Hm). }
  split.
  { intros V s draw m Hm N. apply refused. intros db' H.
    apply add_scan_session_inr in H. destruct H as (_ & L & _).
    rewrite (ScanSession_message_takes _ _ (L V) Hm) in N.
    discriminate. }
  intros V h draw m Hm N. apply refused. intros db' H.
  apply add_download_history_inr in H. destruct H as (_ & L & _).
  rewrite (DownloadHistory_message_takes _ _ (L V) Hm) in N.
  discriminate.
Qed.

Lemma error_message_stored_as_given_witness :
  (exists s',
      scan_sessions (exec_all strict empty_store
                              [AddScanSession (padded_session 1000 3) 1])
      = (scan_sessions empty_store ++ [s'])%list
      /\ (varchar_limit strict = false ->
          ScanSession.error_message s'
          = ScanSession.error_message (padded_session 1000 3))
      /\ (varchar_limit strict = true ->
          forall m,
            ScanSession.error_message (padded_session 1000 3) = Some m ->
            ScanSession.error_message s' = Some (take 1000 m)
            /\ (String.length (take 1000 m) <= 1000)%nat
            /\ (exists k, m = take 1000 m ++ replicate k " ")
            /\ ((String.length m <= 1000)%nat -> take 1000 m = m)))
  /\ exists err,
      add_scan_session strict empty_store (failed_session 1001) 1 = inl err.
Proof.
  split.
  - apply (proj1 (error_message_stored_as_given strict empty_store)
             (padded_session 1000 3) 1).
    vm_compute. reflexivity.
  - apply (proj1 (proj2 (proj2 (error_message_stored_as_given
                                  strict empty_store)))
             eq_refl (failed_session 1001) 1 (replicate 1001 "x")).
    + reflexivity.
    + vm_compute. reflexivity.
Defined.

(** C5 as stated fails: a session that holds an error message of 1001
    characters and a download entry that holds one of 501 characters (on
    pydantic 2 the constructors keep a message of any length) are stored in
    full by a backend that does not enforce column sizes, and one that does
    refuses both rows and stores nothing.  In neither case is a message
    shortened. *)
Lemma long_error_message_not_truncated :
  option_map String.length (ScanSession.error_message (failed_session 1001))
  = Some 1001%nat
  /\ option_map String.length
       (DownloadHistory.error_message (failed_download 1 501))
     = Some 501%nat
  /\ (exists db1 db2,
         add_scan_session lenient empty_store (failed_session 1001) 1 = inr db1
         /\ map (fun s => option_map String.length (ScanSession.error_message s))
                (scan_sessions db1) = [Some 1001%nat]
         /\ add_download_history lenient store_with_one_resource
                                 (failed_download 1 501) 1 = inr db2
         /\ map (fun h => option_map String.length
                            (DownloadHistory.error_message h))
                (download_history db2) = [Some 501%nat])
  /\ add_scan_session strict empty_store (failed_session 1001) 1
     = inl (DataError "error_message")
  /\ add_download_history strict store_with_one_resource
                          (failed_download 1 501) 1
     = inl (DataError "error_message").
Proof.
  split; [vm_compute; reflexivity|]. split; [vm_compute; reflexivity|]. split.
  - do 2 eexists. repeat split; vm_compute; reflexivity.
  - split; vm_compute; reflexivity.
Qed.

(* ================================================================== *)
(** * Further properties of the declarations *)

(** ** Enumerations *)

(** X1: [ScanStatus] has exactly the four members pending, in_progress,
    completed and failed, with pairwise distinct values; looking a member up
    by its value gives the member back, and a string that denotes a member is
    that member's value, so any other string denotes none. *)
Theorem ScanStatus_closed :
  List.length ScanStatus_members = 4%nat
  /\ NoDup (map ScanStatus_value ScanStatus_members)
  /\ (forall s, In s ScanStatus_members)
  /\ (forall s, ScanStatus_of_value (ScanStatus_value s) = Some s)
  /\ (forall v,
         ScanStatus_of_value v = None
         \/ exists s, ScanStatus_of_value v = Some s
                      /\ ScanStatus_value s = v
                      /\ In v ["pending"; "in_progress"; "completed"; "failed"]).
Proof.
  split; [reflexivity|]. split.
  - cbn. repeat (constructor; [cbn; intuition discriminate|]). constructor.
  - split; [intros s; destruct s; cbn; tauto|].
    split; [intros s; destruct s; reflexivity|].
    intros v. destruct (ScanStatus_of_value v) as [s|] eqn:E; [right|now left].
    exists s. unfold ScanStatus_of_value in E. apply find_some in E.
    destruct E as [_ E]. apply String.eqb_eq in E.
    repeat split; trivial. rewrite <- E. destruct s; cbn; tauto.
Qed.

(** ** Validation schemas *)

Lemma check_sized (e : Re.engine) (n : Z) (o : option string) :
  match check_value e [max_length n] (opt VStr o) with
  | None => true
  | Some _ => false
  end = fits_opt n o.
Proof.
  destruct o as [s|];
    cbn [opt check_value max_length_of regex_of fits_opt pattern_of];
    [|reflexivity].
  unfold fits. rewrite Z.ltb_antisym.
  destruct (Z.of_nat (String.length s) <=? n), e; reflexivity.
Qed.

(** X2: a [ScanRequest] is accepted exactly when the target url has at most
    2048 characters, the optional username, password, token and payload,
    where given, have at most 255, 255, 1024 and 10000 characters and, on the
    stack where the [regex] keyword reaches the validator (pydantic 1), the
    target url matches the pattern.  Nothing else is checked (an empty
    credential is accepted), and the accepted request carries the five
    arguments unchanged. *)
Theorem ScanRequest_accepted_iff
        (e : Re.engine) (u : string) (un pw tok pl : option string)
        (req : ScanRequest.t) :
  ScanRequest.new e u un pw tok pl = inr req
  <-> req = ScanRequest.mk u un pw tok pl
      /\ fits 2048 u = true
      /\ (if applies_regex e
          then Re.matches e ScanRequest.target_url_regex u
          else true) = true
      /\ fits_opt 255 un = true
      /\ fits_opt 255 pw = true
      /\ fits_opt 1024 tok = true
      /\ fits_opt 10000 pl = true.
Proof.
  unfold ScanRequest.new. rewrite model_validate_inr.
  unfold ScanRequest.columns.
  cbn [forallb info get ScanRequest.target_url ScanRequest.username
       ScanRequest.password ScanRequest.auth_token ScanRequest.payload].
  rewrite !check_sized.
  cbn [check_value max_length_of regex_of]. unfold pattern_of, fits at 1.
  rewrite Z.ltb_antisym.
  destruct (Z.of_nat (String.length u) <=? 2048); cbn [negb];
    [|intuition discriminate].
  destruct (applies_regex e); cbn [regex_of].
  - destruct (Re.matches e ScanRequest.target_url_regex u);
      [|intuition discriminate].
    rewrite !andb_true_iff. cbn [andb]. intuition.
  - rewrite !andb_true_iff. cbn [andb]. intuition.
Qed.

(** X5: a [ScanStatusUpdate] is accepted exactly when its error message, if
    given, has at most 1000 characters.  Every status is accepted, and so is
    every resource count, negative ones included; the accepted update carries
    the arguments unchanged. *)
Theorem ScanStatusUpdate_accepted_iff
        (e : Re.engine) (st : ScanStatus) (msg : option string)
        (n : option Z) (d : option float) (upd : ScanStatusUpdate.t) :
  ScanStatusUpdate.new e st msg n d = inr upd
  <-> upd = ScanStatusUpdate.mk st msg n d /\ fits_opt 1000 msg = true.
Proof.
  unfold ScanStatusUpdate.new. rewrite model_validate_inr.
  unfold ScanStatusUpdate.columns.
  cbn [forallb info get ScanStatusUpdate.status
       ScanStatusUpdate.error_message ScanStatusUpdate.total_resources_found
       ScanStatusUpdate.scan_duration_seconds].
  rewrite check_sized.
  destruct n, d; cbn [opt check_value andb]; rewrite ?andb_true_r; tauto.
Qed.

(** X6: a [DownloadRequest] is accepted exactly when the client address, if
    given, has at most 45 characters and the user agent, if given, at most
    500; the resource id is not checked against anything. *)
Theorem DownloadRequest_accepted_iff
        (e : Re.engine) (rid : Z) (ip ua : option string)
        (req : DownloadRequest.t) :
  DownloadRequest.new e rid ip ua = inr req
  <-> req = DownloadRequest.mk rid ip ua
      /\ fits_opt 45 ip = true
      /\ fits_opt 500 ua = true.
Proof.
  unfold DownloadRequest.new. rewrite model_validate_inr.
  unfold DownloadRequest.columns.
  cbn [forallb info get DownloadRequest.resource_id DownloadRequest.client_ip
       DownloadRequest.user_agent].
  rewrite !check_sized. cbn [check_value andb].
  rewrite andb_true_r, andb_true_iff. tauto.
Qed.

(** ** The target url pattern, character by character *)

Lemma no_space_to_end_iff (e : Re.engine) (s : string) :
  no_space_to_end e s = true
  <-> exists body nl,
      s = body ++ nl
      /\ (forall c, In c (list_ascii_of_string body) -> Re.is_space e c = false)
      /\ (nl = "" \/ (e = Re.PythonRe /\ nl = String Re.LF "")).
Proof.
  split.
  - induction s as [|a s IH]; intros H.
    + exists "", "". cbn. intuition.
    + cbn [no_space_to_end] in H. apply orb_true_iff in H.
      destruct H as [H|H].
      * apply andb_true_iff in H. destruct H as [Ha Hs].
        apply negb_true_iff in Ha.
        destruct (IH Hs) as (body & nl & -> & Hb & Hn).
        exists (String a body), nl. split; [reflexivity|]. split; [|exact Hn].
        intros c [<-|Hc]; [exact Ha|now apply Hb].
      * destruct s as [|? ?]; [|discriminate]. cbn in H.
        destruct e; [|discriminate]. apply Ascii.eqb_eq in H. subst a.
        exists "", (String Re.LF ""). cbn. intuition.
  - intros (body & nl & -> & Hb & Hn). induction body as [|a body IH].
    + destruct Hn as [->|[-> ->]]; reflexivity.
    + cbn [append no_space_to_end].
      rewrite (Hb a) by (cbn; auto). rewrite IH; [reflexivity|].
      intros c Hc. apply Hb. cbn. auto.
Qed.

Lemma not_special_iff (c : ascii) :
  existsb (Ascii.eqb c) ["/"; "$"; "."; "?"; "#"]%char = false
  <-> ~ In c ["/"; "$"; "."; "?"; "#"]%char.
Proof.
  split.
  - intros H Hin. apply not_true_iff_false in H. apply H.
    apply existsb_exists. exists c. split; [exact Hin|apply Ascii.eqb_refl].
  - intros H. apply not_true_iff_false. intros E.
    apply existsb_exists in E. destruct E as (x & Hx & E).
    apply Ascii.eqb_eq in E. now subst.
Qed.

Lemma host_and_rest_iff (e : Re.engine) (s : string) :
  host_and_rest e s = true
  <-> exists c1 c2 rest,
      s = String c1 (String c2 rest)
      /\ Re.is_space e c1 = false
      /\ ~ In c1 ["/"; "$"; "."; "?"; "#"]%char
      /\ c2 <> Re.LF
      /\ no_space_to_end e rest = true.
Proof.
  split.
  - destruct s as [|c1 [|c2 rest]]; try discriminate.
    unfold host_and_rest. rewrite !andb_true_iff, !negb_true_iff, orb_false_iff.
    intros [[[H1 H2] H3] H4]. exists c1, c2, rest.
    split; [reflexivity|]. split; [exact H1|].
    split; [now apply not_special_iff|]. split; [|exact H4].
    intros ->. now rewrite Ascii.eqb_refl in H3.
  - intros (c1 & c2 & rest & -> & H1 & H2 & H3 & H4).
    unfold host_and_rest. rewrite !andb_true_iff, !negb_true_iff, orb_false_iff.
    repeat split; trivial; [now apply not_special_iff|].
    now apply Ascii.eqb_neq.
Qed.

(** X3: the strings that the target url pattern accepts, spelled out.  A
    string is accepted exactly when it is [http://] or [https://], then one
    character that is neither whitespace nor one of [/ $ . ? #], then one
    character that is no line feed (a space is allowed here), then any number
    of characters that are no whitespace, and at the very end, for Python's
    [re] only, possibly one line feed. *)
Theorem target_url_accepted_iff (e : Re.engine) (u : string) :
  Re.matches e ScanRequest.target_url_regex u = true
  <-> exists scheme c1 c2 body nl,
      u = scheme ++ String c1 (String c2 (body ++ nl))
      /\ (scheme = "http://" \/ scheme = "https://")
      /\ Re.is_space e c1 = false
      /\ ~ In c1 ["/"; "$"; "."; "?"; "#"]%char
      /\ c2 <> Re.LF
      /\ (forall c, In c (list_ascii_of_string body) -> Re.is_space e c = false)
      /\ (nl = "" \/ (e = Re.PythonRe /\ nl = String Re.LF "")).
Proof.
  split.
  - intros M. destruct (target_url_shape _ _ M) as (scheme & s & -> & Hs & _ & H).
    apply host_and_rest_iff in H.
    destruct H as (c1 & c2 & rest & -> & H1 & H2 & H3 & H4).
    apply no_space_to_end_iff in H4. destruct H4 as (body & nl & -> & Hb & Hn).
    exists scheme, c1, c2, body, nl. repeat split; trivial.
  - intros (scheme & c1 & c2 & body & nl & -> & Hs & H1 & H2 & H3 & Hb & Hn).
    rewrite target_url_regex_is_http_url.
    assert (H : host_and_rest e (String c1 (String c2 (body ++ nl))) = true).
    { apply host_and_rest_iff. exists c1, c2, (body ++ nl).
      repeat split; trivial. apply no_space_to_end_iff. now exists body, nl. }
    destruct Hs as [-> | ->]; exact H.
Qed.

(** X4: the target url of an accepted [ScanRequest] has at most 2048
    characters and, on the stack where the pattern is applied (pydantic 1), at
    least 9; both bounds are met by accepted requests.  Where the pattern is
    dropped (pydantic 2) the empty url is accepted. *)
Theorem accepted_target_url_length :
  (forall e u un pw tok pl req,
      ScanRequest.new e u un pw tok pl = inr req ->
      Z.of_nat (String.length (ScanRequest.target_url req)) <= 2048)
  /\ (forall u un pw tok pl req,
         ScanRequest.new Re.PythonRe u un pw tok pl = inr req ->
         9 <= Z.of_nat (String.length (ScanRequest.target_url req)))
  /\ (exists short long,
         String.length short = 9%nat
         /\ String.length long = 2048%nat
         /\ ScanRequest.new Re.PythonRe short None None None None
            = inr (ScanRequest.mk short None None None None)
         /\ ScanRequest.new Re.PythonRe long None None None None
            = inr (ScanRequest.mk long None None None None))
  /\ ScanRequest.new Re.RustRegex "" None None None None
     = inr (ScanRequest.mk "" None None None None).
Proof.
  split.
  - intros e u un pw tok pl req H.
    unfold ScanRequest.new in H. apply model_validate_inr in H.
    destruct H as [-> H]. unfold ScanRequest.columns in H.
    cbn [forallb info get ScanRequest.target_url check_value max_length_of]
      in H.
    apply andb_true_iff in H. destruct H as [H _].
    destruct (2048 <? Z.of_nat (String.length u)) eqn:L; [discriminate|].
    now apply Z.ltb_ge in L.
  - split.
    + intros u un pw tok pl req H. apply ScanRequest_new_accepts in H.
      destruct H as [-> M]. cbn [ScanRequest.target_url].
      destruct (target_url_shape _ _ M) as (scheme & s & -> & Hs & _ & Hh).
      destruct s as [|c1 [|c2 rest]]; try discriminate.
      destruct Hs as [-> | ->]; cbn [append String.length]; lia.
    + split; [|reflexivity].
      exists "http://ab", ("http://" ++ replicate 2041 "a").
      repeat split; vm_compute; reflexivity.
Qed.

(** ** Primary keys *)

Lemma filter_ids_NoDup (T : Type) (get_id : T -> option Z) (p : T -> bool)
      (rows : list T) :
  NoDup (ids_of get_id rows) -> NoDup (ids_of get_id (filter p rows)).
Proof.
  induction rows as [|x rows IH]; cbn; [constructor|].
  intros ND. destruct (p x); cbn; destruct (get_id x) as [i|] eqn:E.
  - inversion ND as [|? ? Hn ND']; subst. constructor; [|now apply IH].
    intros Hin. apply Hn. clear - Hin.
    induction rows as [|y rows IH]; cbn in *; [tauto|].
    destruct (p y); cbn in *; destruct (get_id y); cbn in *; intuition.
  - now apply IH.
  - inversion ND; subst. now apply IH.
  - now apply IH.
Qed.

Lemma filter_keyed (T : Type) (get_id : T -> option Z) (p : T -> bool)
      (rows : list T) :
  keyed get_id rows -> keyed get_id (filter p rows).
Proof.
  intros [ND All]. split; [now apply filter_ids_NoDup|].
  apply Forall_forall. intros x Hx. apply filter_In in Hx.
  destruct Hx as [Hx _]. revert x Hx. now apply Forall_forall.
Qed.

Lemma snoc_keyed (T : Type) (get_id : T -> option Z) (rows : list T)
      (x : T) (i : Z) :
  keyed get_id rows -> get_id x = Some i -> ~ In i (ids_of get_id rows) ->
  keyed get_id (rows ++ [x]).
Proof.
  intros [ND All] Hi Hn. split.
  - rewrite ids_of_app. cbn [ids_of]. rewrite Hi. now apply NoDup_snoc.
  - apply Forall_app. split; [exact All|].
    constructor; [congruence|constructor].
Qed.

Lemma perform_keyed (b : Backend) (db db' : Store) (a : action) :
  keyed ScanSession.id (scan_sessions db)
  /\ keyed WebResource.id (web_resources db)
  /\ keyed DownloadHistory.id (download_history db) ->
  perform b db a = inr db' ->
  keyed ScanSession.id (scan_sessions db')
  /\ keyed WebResource.id (web_resources db')
  /\ keyed DownloadHistory.id (download_history db').
Proof.
  intros (KS & KW & KH).
  destruct a as [[s d|r d|h d|sid|sid]|rid]; cbn [perform exec].
  - intros H. apply add_scan_session_inr in H. destruct H as (-> & _ & _ & K).
    cbn [scan_sessions web_resources download_history].
    split; [|now split].
    eapply snoc_keyed; [exact KS|apply kept_session_id|].
    apply K, kept_session_id.
  - intros H. apply add_web_resource_inr in H.
    destruct H as (-> & _ & _ & _ & K & _).
    cbn [scan_sessions web_resources download_history].
    split; [exact KS|]. split; [|exact KH].
    eapply snoc_keyed; [exact KW|apply kept_resource_id|].
    apply K, kept_resource_id.
  - intros H. apply add_download_history_inr in H.
    destruct H as (-> & _ & _ & K & _).
    cbn [scan_sessions web_resources download_history].
    split; [exact KS|]. split; [exact KW|].
    eapply snoc_keyed; [exact KH|apply kept_download_id|].
    apply K, kept_download_id.
  - intros H. apply delete_scan_session_inr in H. destruct H as [_ ->].
    cbn. split; [now apply filter_keyed|]. now split.
  - intros H. apply delete_scan_session_statement_inr in H.
    destruct H as [-> _]. cbn. split; [now apply filter_keyed|]. now split.
  - unfold delete_web_resource. destruct (_ && _); [discriminate|].
    intros H. inversion H; subst db'. cbn.
    split; [exact KS|]. split; [now apply filter_keyed|exact KH].
Qed.

Lemma perform_all_keyed (b : Backend) (acts : list action) :
  forall db,
    keyed ScanSession.id (scan_sessions db)
    /\ keyed WebResource.id (web_resources db)
    /\ keyed DownloadHistory.id (download_history db) ->
    keyed ScanSession.id (scan_sessions (perform_all b db acts))
    /\ keyed WebResource.id (web_resources (perform_all b db acts))
    /\ keyed DownloadHistory.id (download_history (perform_all b db acts)).
Proof.
  induction acts as [|a acts IH]; intros db K; cbn; [exact K|].
  destruct (perform b db a) as [|db'] eqn:E; [now apply IH|].
  apply IH. now apply perform_keyed with b db a.
Qed.

(** X7: [id] is the primary key of each of the three tables.  On every
    backend, after any sequence of insertions and deletions from the empty
    store, every stored session, resource and download entry has an id, and no
    two rows of a table have the same id. *)
Theorem primary_keys_unique (b : Backend) (acts : list action) :
  let db := perform_all b empty_store acts in
  (NoDup (ids_of ScanSession.id (scan_sessions db))
   /\ Forall (fun s => ScanSession.id s <> None) (scan_sessions db))
  /\ (NoDup (ids_of WebResource.id (web_resources db))
      /\ Forall (fun r => WebResource.id r <> None) (web_resources db))
  /\ (NoDup (ids_of DownloadHistory.id (download_history db))
      /\ Forall (fun h => DownloadHistory.id h <> None) (download_history db)).
Proof.
  apply (@perform_all_keyed b acts empty_store).
  unfold keyed. cbn. repeat split; constructor.
Qed.

(** ** Stored rows are within their columns *)

Lemma cut_fits (T : Type) (cols : list (Column T)) (field : string)
      (n : Z) (s : string) :
  size_of cols field = Some n -> 0 <= n -> fits n (cut cols field s) = true.
Proof. intros E H. unfold cut. rewrite E. now apply fits_take. Qed.

Lemma cut_fits_opt (T : Type) (cols : list (Column T)) (field : string)
      (n : Z) (o : option string) :
  size_of cols field = Some n -> 0 <= n ->
  fits_opt n (option_map (cut cols field) o) = true.
Proof.
  intros E H. destruct o as [s|]; [|reflexivity]. now apply cut_fits.
Qed.



Lemma kept_session_fits (b : Backend) (s : ScanSession.t) (draw : Z) :
  out_of_range ScanSession.columns b (kept_session b s draw) = None ->
  session_fits b (kept_session b s draw).
Proof.
  intros R. split.
  - intros V. unfold kept_session. cbv zeta. rewrite V.
    cbn [ScanSession.clip ScanSession.target_url ScanSession.username
         ScanSession.password ScanSession.auth_token ScanSession.payload
         ScanSession.error_message].
    rewrite (@cut_fits _ ScanSession.columns "target_url" 2048) by
        (reflexivity || lia).
    rewrite (@cut_fits_opt _ ScanSession.columns "username" 255),
      (@cut_fits_opt _ ScanSession.columns "password" 255),
      (@cut_fits_opt _ ScanSession.columns "auth_token" 1024),
      (@cut_fits_opt _ ScanSession.columns "payload" 10000),
      (@cut_fits_opt _ ScanSession.columns "error_message" 1000)
      by (reflexivity || lia).
    reflexivity.
  - now apply ScanSession_out_of_range.
Qed.

Lemma kept_resource_fits (b : Backend) (r : WebResource.t) (draw : Z) :
  out_of_range WebResource.columns b (kept_resource b r draw) = None ->
  (enum_check b = true ->
   WebResource.storable (WebResource.resource_type r) = true) ->
  resource_fits b (kept_resource b r draw).
Proof.
  intros R C. split.
  - intros V. unfold kept_resource. cbv zeta. rewrite V.
    cbn [WebResource.clip WebResource.url WebResource.relative_path
         WebResource.file_extension WebResource.content_type
         WebResource.source_element].
    rewrite (@cut_fits _ WebResource.columns "url" 2048),
      (@cut_fits _ WebResource.columns "relative_path" 1024),
      (@cut_fits _ WebResource.columns "file_extension" 10)
      by (reflexivity || lia).
    rewrite (@cut_fits_opt _ WebResource.columns "content_type" 100),
      (@cut_fits_opt _ WebResource.columns "source_element" 50)
      by (reflexivity || lia).
    reflexivity.
  - split; [now apply WebResource_out_of_range|].
    intros E. specialize (C E). rewrite kept_resource_type.
    now apply ResourceType_bind_storable.
Qed.

Lemma kept_download_fits (b : Backend) (h : DownloadHistory.t) (draw : Z) :
  out_of_range DownloadHistory.columns b (kept_download b h draw) = None ->
  download_fits b (kept_download b h draw).
Proof.
  intros R. split.
  - intros V. unfold kept_download. cbv zeta. rewrite V.
    cbn [DownloadHistory.clip DownloadHistory.error_message
         DownloadHistory.client_ip DownloadHistory.user_agent].
    rewrite (@cut_fits_opt _ DownloadHistory.columns "error_message" 500),
      (@cut_fits_opt _ DownloadHistory.columns "client_ip" 45),
      (@cut_fits_opt _ DownloadHistory.columns "user_agent" 500)
      by (reflexivity || lia).
    reflexivity.
  - now apply DownloadHistory_out_of_range.
Qed.

Lemma Forall_filter (A : Type) (P : A -> Prop) (p : A -> bool) (l : list A) :
  Forall P l -> Forall P (filter p l).
Proof.
  intros H. apply Forall_forall. intros x Hx. apply filter_In in Hx.
  destruct Hx as [Hx _]. revert x Hx. now apply Forall_forall.
Qed.

Lemma Forall_snoc (A : Type) (P : A -> Prop) (l : list A) (x : A) :
  Forall P l -> P x -> Forall P (l ++ [x]).
Proof. intros H Hx. apply Forall_app. split; [exact H|]. now constructor. Qed.

Lemma perform_fits (b : Backend) (db db' : Store) (a : action) :
  Forall (session_fits b) (scan_sessions db)
  /\ Forall (resource_fits b) (web_resources db)
  /\ Forall (download_fits b) (download_history db) ->
  perform b db a = inr db' ->
  Forall (session_fits b) (scan_sessions db')
  /\ Forall (resource_fits b) (web_resources db')
  /\ Forall (download_fits b) (download_history db').
Proof.
  intros (FS & FW & FH).
  destruct a as [[s d|r d|h d|sid|sid]|rid]; cbn [perform exec].
  - intros H. apply add_scan_session_inr in H. destruct H as (-> & _ & R & _).
    cbn [scan_sessions web_resources download_history].
    split; [|now split]. apply Forall_snoc; [exact FS|].
    now apply kept_session_fits.
  - intros H. apply add_web_resource_inr in H.
    destruct H as (-> & C & _ & R & _).
    cbn [scan_sessions web_resources download_history].
    split; [exact FS|]. split; [|exact FH].
    apply Forall_snoc; [exact FW|]. now apply kept_resource_fits.
  - intros H. apply add_download_history_inr in H.
    destruct H as (-> & _ & R & _).
    cbn [scan_sessions web_resources download_history].
    split; [exact FS|]. split; [exact FW|].
    apply Forall_snoc; [exact FH|]. now apply kept_download_fits.
  - intros H. apply delete_scan_session_inr in H. destruct H as [_ ->].
    cbn. split; [now apply Forall_filter|]. now split.
  - intros H. apply delete_scan_session_statement_inr in H.
    destruct H as [-> _]. cbn. split; [now apply Forall_filter|]. now split.
  - unfold delete_web_resource. destruct (_ && _); [discriminate|].
    intros H. inversion H; subst db'. cbn.
    split; [exact FS|]. split; [now apply Forall_filter|exact FH].
Qed.

Lemma perform_all_fits (b : Backend) (acts : list action) :
  forall db,
    Forall (session_fits b) (scan_sessions db)
    /\ Forall (resource_fits b) (web_resources db)
    /\ Forall (download_fits b) (download_history db) ->
    Forall (session_fits b) (scan_sessions (perform_all b db acts))
    /\ Forall (resource_fits b) (web_resources (perform_all b db acts))
    /\ Forall (download_fits b) (download_history (perform_all b db acts)).
Proof.
  induction acts as [|a acts IH]; intros db K; cbn; [exact K|].
  destruct (perform b db a) as [|db'] eqn:E; [now apply IH|].
  apply IH. now apply perform_fits with db a.
Qed.

Lemma empty_store_fits (b : Backend) :
  Forall (session_fits b) (scan_sessions empty_store)
  /\ Forall (resource_fits b) (web_resources empty_store)
  /\ Forall (download_fits b) (download_history empty_store).
Proof. cbn. repeat split; constructor. Qed.

(** X8: every stored session is within its columns.  After any sequence of
    insertions and deletions from the empty store, the id and the resource
    count of each session are numbers that an [INTEGER] column of the backend
    holds and, on a backend that enforces column sizes, its target url has at
    most 2048 characters and its username, password, token, payload and error
    message, where present, at most 255, 255, 1024, 10000 and 1000.  For
    example, a session whose message is 1000 characters and three spaces is
    stored there with a message of 1000 characters. *)
Theorem stored_sessions_fit (b : Backend) (acts : list action) :
  Forall (session_fits b) (scan_sessions (perform_all b empty_store acts))
  /\ map (fun s => option_map String.length (ScanSession.error_message s))
         (scan_sessions
            (perform_all strict empty_store
                         [Do (AddScanSession (padded_session 1000 3) 1)]))
     = [Some 1000%nat].
Proof.
  split; [|vm_compute; reflexivity].
  apply (@perform_all_fits b acts empty_store). apply empty_store_fits.
Qed.

(** X9: every stored resource is within its columns.  After any sequence of
    insertions and deletions from the empty store, the id, session id, file
    size and download attempts of each resource are numbers that an [INTEGER]
    column of the backend holds; on a backend that enforces column sizes, its
    url, relative path and file extension have at most 2048, 1024 and 10
    characters and its content type and source element, where present, at
    most 100 and 50; and on a backend that checks the enumeration column, its
    resource type is a member of [ResourceType].  For example, the sample
    resource is stored with its type, and the resource of type ["exe"] is
    not stored where the column is checked. *)
Theorem stored_resources_fit (b : Backend) (acts : list action) :
  Forall (resource_fits b) (web_resources (perform_all b empty_store acts))
  /\ map WebResource.resource_type
         (web_resources
            (perform_all strict empty_store
                         [Do (AddScanSession example_session 1);
                          Do (AddWebResource (example_resource 1) 1);
                          Do (AddWebResource exe_resource 2)]))
     = [Member IMAGE].
Proof.
  split; [|vm_compute; reflexivity].
  apply (@perform_all_fits b acts empty_store). apply empty_store_fits.
Qed.

(** X10: every stored download entry is within its columns.  After any
    sequence of insertions and deletions from the empty store, the id,
    resource id and file size of each entry are numbers that an [INTEGER]
    column of the backend holds and, on a backend that enforces column sizes,
    its error message, client address and user agent, where present, have at
    most 500, 45 and 500 characters.  For example, of two failed downloads of
    a stored resource, one with a message of 20 characters and one with a
    message of 501, the first is stored there and the second is not. *)
Theorem stored_downloads_fit (b : Backend) (acts : list action) :
  Forall (download_fits b) (download_history (perform_all b empty_store acts))
  /\ map (fun h => option_map String.length (DownloadHistory.error_message h))
         (download_history
            (perform_all strict empty_store
                         [Do (AddScanSession example_session 1);
                          Do (AddWebResource (example_resource 1) 1);
                          Do (AddDownloadHistory (failed_download 1 20) 1);
                          Do (AddDownloadHistory (failed_download 1 501) 2)]))
     = [Some 20%nat].
Proof.
  split; [|vm_compute; reflexivity].
  apply (@perform_all_fits b acts empty_store). apply empty_store_fits.
Qed.

(** ** Lookups and relationships *)

Section Lookup.

Variable T : Type.
Variable get_id : T -> option Z.

Lemma find_has_id (rows : list T) (x : T) (i : Z) :
  NoDup (ids_of get_id rows) -> In x rows -> get_id x = Some i ->
  find (has_id get_id i) rows = Some x.
Proof using Type.
  induction rows as [|y rows IH]; cbn [find ids_of In]; [tauto|].
  intros ND Hin Hx. unfold has_id at 1.
  destruct (get_id y) as [j|] eqn:Ey.
  - inversion ND as [|? ? Hn ND']; subst.
    destruct (Z.eqb_spec j i) as [->|N].
    + destruct Hin as [->|Hin]; [reflexivity|]. exfalso. apply Hn.
      clear - Hin Hx. induction rows as [|z rows IH]; cbn in *; [tauto|].
      destruct Hin as [->|Hin]; [rewrite Hx; cbn; auto|].
      destruct (get_id z); cbn; auto.
    + destruct Hin as [->|Hin]; [congruence|]. now apply IH.
  - destruct Hin as [->|Hin]; [congruence|]. now apply IH.
Qed.

Lemma find_has_id_inv (rows : list T) (x : T) (i : Z) :
  find (has_id get_id i) rows = Some x -> In x rows /\ get_id x = Some i.
Proof using Type.
  intros H. apply find_some in H. destruct H as [Hin H]. split; [exact Hin|].
  unfold has_id in H. destruct (get_id x) as [j|]; [|discriminate].
  apply Z.eqb_eq in H. now subst.
Qed.




End Lookup.

(** X11: [ScanSession.resources] and [WebResource.scan_session] are the two
    sides of one relationship.  When session ids are pairwise distinct, a
    stored resource is among the resources of a stored session exactly when
    that session is the resource's scan session. *)
Theorem relationship_two_sided
        (db : Store) (s : ScanSession.t) (sid : Z) (r : WebResource.t) :
  NoDup (ids_of ScanSession.id (scan_sessions db)) ->
  In s (scan_sessions db) ->
  ScanSession.id s = Some sid ->
  In r (web_resources db) ->
  In r (resources_of db sid) <-> scan_session_of db r = Some s.
Proof.
  intros ND Hs Hid Hr. unfold resources_of, scan_session_of, get_scan_session.
  rewrite filter_In, Z.eqb_eq. split.
  - intros [_ E]. rewrite E. now apply find_has_id.
  - intros H. apply find_has_id_inv in H. destruct H as [_ H].
    split; [exact Hr|congruence].
Qed.

Lemma relationship_two_sided_witness :
  In (stored_resource 2) (resources_of store_with_two_sessions 2)
  <-> scan_session_of store_with_two_sessions (stored_resource 2)
      = Some (stored_session 2).
Proof.
  apply (@relationship_two_sided store_with_two_sessions (stored_session 2) 2
           (stored_resource 2)).
  - vm_compute. repeat constructor; cbn; intuition discriminate.
  - vm_compute. auto.
  - reflexivity.
  - vm_compute. auto.
Defined.





(** ** The foreign key of the download history *)

Lemma delete_web_resource_inr (b : Backend) (db db' : Store) (rid : Z) :
  delete_web_resource b db rid = inr db' ->
  db' = Build_Store (scan_sessions db)
                    (filter (fun r => negb (has_id WebResource.id rid r))
                            (web_resources db))
                    (download_history db)
  /\ (foreign_keys b = true ->
      forall h, In h (download_history db) ->
                DownloadHistory.resource_id h <> rid).
Proof.
  unfold delete_web_resource.
  destruct (foreign_keys b); cbn [andb].
  - destruct (existsb _ (download_history db)) eqn:E; [discriminate|].
    intros H. inversion H. split; [reflexivity|].
    intros _ h Hh Heq.
    apply not_true_iff_false in E. apply E. apply existsb_exists.
    exists h. split; [exact Hh|]. now apply Z.eqb_eq.
  - intros H. inversion H. split; [reflexivity|discriminate].
Qed.

Section Referenced.

Variable b : Backend.
Hypothesis enforced : foreign_keys b = true.

Lemma perform_referenced (db db' : Store) (a : action) :
  (forall h, In h (download_history db) ->
             In (DownloadHistory.resource_id h)
                (ids_of WebResource.id (web_resources db))) ->
  perform b db a = inr db' ->
  forall h, In h (download_history db') ->
            In (DownloadHistory.resource_id h)
               (ids_of WebResource.id (web_resources db')).
Proof using enforced.
  intros FK. destruct a as [[s d|r d|x d|sid|sid]|rid]; cbn [perform exec].
  - intros H. apply add_scan_session_inr in H. destruct H as (-> & _).
    exact FK.
  - intros H. apply add_web_resource_inr in H. destruct H as (-> & _).
    cbn [web_resources download_history]. intros h Hh.
    rewrite ids_of_app. apply in_or_app. left. now apply FK.
  - intros H. apply add_download_history_inr in H.
    destruct H as (-> & _ & _ & _ & D).
    cbn [web_resources download_history]. intros h Hh.
    apply in_app_or in Hh. destruct Hh as [Hh|[<-|[]]]; [now apply FK|].
    exact (D enforced).
  - intros H. apply delete_scan_session_inr in H. destruct H as [_ ->].
    exact FK.
  - intros H. apply delete_scan_session_statement_inr in H.
    destruct H as [-> _]. exact FK.
  - intros H. apply delete_web_resource_inr in H. destruct H as [-> N].
    cbn [web_resources download_history]. intros h Hh.
    rewrite ids_of_filter_out. apply filter_In. split; [now apply FK|].
    apply negb_true_iff, Z.eqb_neq. now apply N.
Qed.

Lemma perform_all_referenced (acts : list action) :
  forall db,
    (forall h, In h (download_history db) ->
               In (DownloadHistory.resource_id h)
                  (ids_of WebResource.id (web_resources db))) ->
    forall h, In h (download_history (perform_all b db acts)) ->
              In (DownloadHistory.resource_id h)
                 (ids_of WebResource.id
                         (web_resources (perform_all b db acts))).
Proof using enforced.
  induction acts as [|a acts IH]; intros db FK; cbn; [exact FK|].
  destruct (perform b db a) as [|db'] eqn:E; [now apply IH|].
  apply IH. now apply perform_referenced with db a.
Qed.

End Referenced.

Lemma filter_has_id_gone (T : Type) (get_id : T -> option Z)
      (rows : list T) (i : Z) :
  filter (has_id get_id i) (filter (fun r => negb (has_id get_id i r)) rows)
  = [].
Proof.
  induction rows as [|x rows IH]; cbn; [reflexivity|].
  destruct (has_id get_id i x) eqn:E; cbn; [exact IH|]. now rewrite E.
Qed.

(** X12: [download_history.resource_id] is a foreign key to [web_resources.id]
    with no [ondelete].  On a backend that checks foreign keys, after any
    sequence of insertions and deletions from the empty store every download
    entry refers to exactly one stored resource, and a resource that a
    download entry refers to cannot be deleted.  On every backend, deleting a
    resource leaves the sessions and the download history as they are. *)
Theorem download_history_refers_to_resource (b : Backend) :
  (foreign_keys b = true ->
   forall acts h,
     In h (download_history (perform_all b empty_store acts)) ->
     resources_with_id (perform_all b empty_store acts)
                       (DownloadHistory.resource_id h) = 1%nat)
  /\ (foreign_keys b = true ->
      forall db h,
        In h (download_history db) ->
        delete_web_resource b db (DownloadHistory.resource_id h)
        = inl (IntegrityError "foreign key"))
  /\ (forall db rid db',
         delete_web_resource b db rid = inr db' ->
         scan_sessions db' = scan_sessions db
         /\ download_history db' = download_history db
         /\ resources_with_id db' rid = 0%nat).
Proof.
  split.
  - intros F acts h Hh. unfold resources_with_id. apply has_id_count.
    + apply (@perform_all_keyed b acts empty_store).
      unfold keyed. cbn. repeat split; constructor.
    + apply (@perform_all_referenced b F acts empty_store); [intros x []|].
      exact Hh.
  - split.
    + intros F db h Hh. unfold delete_web_resource. rewrite F. cbn [andb].
      assert (E : existsb (fun x => DownloadHistory.resource_id x
                                    =? DownloadHistory.resource_id h)
                          (download_history db) = true).
      { apply existsb_exists. exists h. split; [exact Hh|apply Z.eqb_refl]. }
      now rewrite E.
    + intros db rid db' H. apply delete_web_resource_inr in H.
      destruct H as [-> _]. split; [reflexivity|]. split; [reflexivity|].
      unfold resources_with_id. cbn [web_resources].
      now rewrite filter_has_id_gone.
Qed.

Lemma download_history_refers_to_resource_witness :
  List.length (download_history (perform_all strict empty_store download_script))
  = 1%nat
  /\ forall h,
      In h (download_history (perform_all strict empty_store download_script)) ->
      resources_with_id (perform_all strict empty_store download_script)
                        (DownloadHistory.resource_id h) = 1%nat.
Proof.
  split; [reflexivity|].
  apply (proj1 (download_history_refers_to_resource strict) eq_refl
               download_script).
Defined.
